(* Verification of the query front end of
   AI-Powered_Natural_Language_Query_System_for_Big_Data
   (src/frontend/src/App.jsx): the controller [handleQuery] of [App] and
   the chart-shape inference of [ChartPreview].

   The JavaScript values the code handles are embedded as [jsval]: the
   values JSON.parse produces (null, booleans, numbers, strings, arrays,
   plain objects), [undefined], and the built-in prototype objects and
   native functions that inherited property reads can return.  A string
   is a Rocq [string] whose characters are UTF-16 code units below 256.
   A finite double is carried by its exact rational value (the rounding
   of a decimal literal to the nearest double is not modelled; whether
   a literal overflows to an infinity is). *)

From Stdlib Require Import String Ascii List Bool ZArith QArith Qabs Qround Lia Lqa.
Import ListNotations.
Open Scope string_scope.
Open Scope nat_scope.

(* ------------------------------------------------------------------ *)
(** * Numbers *)

Inductive number : Type :=
| Fin (q : Q)
| NaN
| PosInf
| NegInf.

(** Number.isFinite on a value already known to be a number. *)
Definition finite (n : number) : bool :=
  match n with Fin _ => true | _ => false end.

(** A decimal or binary literal whose exact value reaches
    2^1024 - 2^970 rounds to an infinity. *)
Definition overflow_bound : Q := inject_Z (2 ^ 1024 - 2 ^ 970)%Z.

Definition round_literal (q : Q) : number :=
  if Qle_bool overflow_bound (Qabs q) then
    (if Qle_bool 0%Q q then PosInf else NegInf)
  else Fin (Qred q).

Definition neg_number (n : number) : number :=
  match n with
  | Fin q => Fin (Qred (- q)%Q)
  | NaN => NaN
  | PosInf => NegInf
  | NegInf => PosInf
  end.

(* ------------------------------------------------------------------ *)
(** * Characters and strings *)

Definition code (c : ascii) : nat := nat_of_ascii c.

(** WhiteSpace and LineTerminator code points below 256: TAB, LF, VT,
    FF, CR, SPACE and NO-BREAK SPACE. *)
Definition is_js_space (c : ascii) : bool :=
  let n := code c in
  ((9 <=? n) && (n <=? 13)) || (n =? 32) || (n =? 160).

Fixpoint drop_space (l : list ascii) : list ascii :=
  match l with
  | c :: r => if is_js_space c then drop_space r else l
  | [] => []
  end.

(** String.prototype.trim *)
Definition trim (s : string) : string :=
  string_of_list_ascii
    (rev (drop_space (rev (drop_space (list_ascii_of_string s))))).

Definition digit_value (radix : Z) (c : ascii) : option Z :=
  let n := Z.of_nat (code c) in
  let v :=
    (if (48 <=? n) && (n <=? 57) then n - 48
     else if (97 <=? n) && (n <=? 122) then n - 87
     else if (65 <=? n) && (n <=? 90) then n - 55
     else 99)%Z in
  if (v <? radix)%Z then Some v else None.

(** Value of a non-empty run of digits; [None] on an empty run or a
    character that is no digit of the radix. *)
Fixpoint digits_acc (radix acc : Z) (l : list ascii) : option Z :=
  match l with
  | [] => Some acc
  | c :: r =>
      match digit_value radix c with
      | Some d => digits_acc radix (radix * acc + d)%Z r
      | None => None
      end
  end.

Definition digits_value (radix : Z) (l : list ascii) : option Z :=
  match l with [] => None | _ => digits_acc radix 0 l end.

(** Longest prefix of decimal digits, and the rest. *)
Fixpoint span_digits (l : list ascii) : list ascii * list ascii :=
  match l with
  | c :: r =>
      match digit_value 10 c with
      | Some _ => let '(d, rest) := span_digits r in (c :: d, rest)
      | None => ([], l)
      end
  | [] => ([], [])
  end.

Definition list_of (s : string) : list ascii := list_ascii_of_string s.

(** ExponentPart: (e|E) [+|-] digits, then the end of the string. *)
Definition parse_exponent (l : list ascii) : option Z :=
  match l with
  | [] => Some 0%Z
  | e :: r =>
      if (code e =? 101) || (code e =? 69) then
        match r with
        | s :: r' =>
            if code s =? 43 then digits_value 10 r'
            else if code s =? 45 then option_map Z.opp (digits_value 10 r')
            else digits_value 10 r
        | [] => None
        end
      else None
  end.

Definition decimal_value (int frac : list ascii) (exp : Z) : Q :=
  let m := match digits_acc 10 0 (int ++ frac) with Some v => v | None => 0%Z end in
  let k := (exp - Z.of_nat (List.length frac))%Z in
  if (0 <=? k)%Z then inject_Z (m * 10 ^ k)%Z
  else Qmake m (Z.to_pos (10 ^ (- k))%Z).

(** StrUnsignedDecimalLiteral: Infinity, or digits with an optional
    fraction and exponent, with at least one digit before the exponent. *)
Definition parse_unsigned (l : list ascii) : option number :=
  if String.eqb (string_of_list_ascii l) "Infinity" then Some PosInf else
  let '(int, r1) := span_digits l in
  let '(frac, r2, has_dot) :=
    match r1 with
    | c :: r => if code c =? 46 then
                  let '(f, r') := span_digits r in (f, r', true)
                else ([], r1, false)
    | [] => ([], [], false)
    end in
  match int, frac with
  | [], [] => None
  | _, _ =>
      match parse_exponent r2 with
      | Some e => Some (round_literal (decimal_value int frac e))
      | None => None
      end
  end.

(** StringToNumber on the trimmed string: empty gives 0; 0x, 0o and 0b
    prefixes read unsigned integers; otherwise an optionally signed
    decimal literal; anything else is NaN. *)
Definition parse_numeric (l : list ascii) : number :=
  let radix_literal radix r :=
    match digits_value radix r with
    | Some v => round_literal (inject_Z v)
    | None => NaN
    end in
  match l with
  | [] => Fin 0%Q
  | z :: x :: r =>
      if (code z =? 48) && ((code x =? 120) || (code x =? 88)) then radix_literal 16%Z r
      else if (code z =? 48) && ((code x =? 111) || (code x =? 79)) then radix_literal 8%Z r
      else if (code z =? 48) && ((code x =? 98) || (code x =? 66)) then radix_literal 2%Z r
      else if code z =? 43 then match parse_unsigned (x :: r) with Some n => n | None => NaN end
      else if code z =? 45 then match parse_unsigned (x :: r) with Some n => neg_number n | None => NaN end
      else match parse_unsigned l with Some n => n | None => NaN end
  | [c] =>
      match parse_unsigned l with Some n => n | None => NaN end
  end.

Definition string_to_number (s : string) : number :=
  parse_numeric (list_of (trim s)).

(** Decimal representation of a natural number (ToString of an array
    index). *)
Fixpoint dec_digits (fuel n : nat) (acc : string) : string :=
  match fuel with
  | O => acc
  | S fuel' =>
      let acc' := String (ascii_of_nat (48 + n mod 10)) acc in
      if n <? 10 then acc' else dec_digits fuel' (n / 10) acc'
  end.

Definition nat_to_string (n : nat) : string := dec_digits (S n) n "".

(** CanonicalNumericIndexString restricted to array indices: a decimal
    without leading zero (or "0") whose value is below 2^32 - 1. *)
Definition array_index (k : string) : option nat :=
  let l := list_of k in
  match l with
  | z :: _ :: _ => if code z =? 48 then None else
      match digits_value 10 l with
      | Some v => if (v <? 2 ^ 32 - 1)%Z then Some (Z.to_nat v) else None
      | None => None
      end
  | _ =>
      match digits_value 10 l with
      | Some v => Some (Z.to_nat v)
      | None => None
      end
  end.

(* ------------------------------------------------------------------ *)
(** * JavaScript values *)

(** Native functions, told apart where the code can call them
    (conversion to a primitive calls valueOf and toString). *)
Inductive native : Type :=
| NObjValueOf            (* Object.prototype.valueOf *)
| NObjToString           (* Object.prototype.toString *)
| NArrToString           (* Array.prototype.toString *)
| NArrJoin               (* Array.prototype.join *)
| NFnToString            (* Function.prototype.toString *)
| NOther (owner name : string).

Inductive builtin : Type :=
| BObjectProto
| BArrayProto
| BFunctionProto
| BStringProto
| BNumberProto
| BBooleanProto
| BFn (f : native).

Set Warnings "-register-all".

(** An object is its own properties in Object.keys order and its
    [[Prototype]] (null, a built-in prototype or another object). *)
Inductive jsval : Type :=
| JUndef
| JNull
| JBool (b : bool)
| JNum (n : number)
| JStr (s : string)
| JArr (elems : list jsval)
| JObj (props : list (string * jsval)) (proto : jsval)
| JBuiltin (b : builtin).

Definition object_prototype : jsval := JBuiltin BObjectProto.

(** An object as JSON.parse and the literal {} create it. *)
Definition plain (props : list (string * jsval)) : jsval :=
  JObj props object_prototype.

Definition fn (f : native) : jsval := JBuiltin (BFn f).

Definition member_of (owner : string) (names : list string) (k : string)
  : option native :=
  if existsb (String.eqb k) names then Some (NOther owner k) else None.

Definition object_member (k : string) : option native :=
  if String.eqb k "valueOf" then Some NObjValueOf
  else if String.eqb k "toString" then Some NObjToString
  else member_of "Object"
    ["constructor"; "hasOwnProperty"; "isPrototypeOf";
     "propertyIsEnumerable"; "toLocaleString"; "__defineGetter__";
     "__defineSetter__"; "__lookupGetter__"; "__lookupSetter__"] k.

Definition array_member (k : string) : option native :=
  if String.eqb k "toString" then Some NArrToString
  else if String.eqb k "join" then Some NArrJoin
  else member_of "Array"
    ["at"; "concat"; "constructor"; "copyWithin"; "entries"; "every";
     "fill"; "filter"; "find"; "findIndex"; "findLast"; "findLastIndex";
     "flat"; "flatMap"; "forEach"; "includes"; "indexOf"; "keys";
     "lastIndexOf"; "map"; "pop"; "push"; "reduce"; "reduceRight";
     "reverse"; "shift"; "slice"; "some"; "sort"; "splice";
     "toLocaleString"; "toReversed"; "toSorted"; "toSpliced"; "unshift";
     "values"; "with"] k.

Definition function_member (k : string) : option native :=
  if String.eqb k "toString" then Some NFnToString
  else member_of "Function" ["apply"; "bind"; "call"; "constructor"] k.

Definition string_member (k : string) : option native :=
  member_of "String"
    ["anchor"; "at"; "big"; "blink"; "bold"; "charAt"; "charCodeAt";
     "codePointAt"; "concat"; "constructor"; "endsWith"; "fixed";
     "fontcolor"; "fontsize"; "includes"; "indexOf"; "isWellFormed";
     "italics"; "lastIndexOf"; "link"; "localeCompare"; "match";
     "matchAll"; "normalize"; "padEnd"; "padStart"; "repeat"; "replace";
     "replaceAll"; "search"; "slice"; "small"; "split"; "startsWith";
     "strike"; "sub"; "substr"; "substring"; "sup"; "toLocaleLowerCase";
     "toLocaleUpperCase"; "toLowerCase"; "toString"; "toUpperCase";
     "toWellFormed"; "trim"; "trimEnd"; "trimLeft"; "trimRight";
     "trimStart"; "valueOf"] k.

Definition number_member (k : string) : option native :=
  member_of "Number"
    ["constructor"; "toExponential"; "toFixed"; "toLocaleString";
     "toPrecision"; "toString"; "valueOf"] k.

Definition boolean_member (k : string) : option native :=
  member_of "Boolean" ["constructor"; "toString"; "valueOf"] k.

(** Object.getPrototypeOf, after ToObject for primitives. *)
Definition proto_of (v : jsval) : jsval :=
  match v with
  | JObj _ pr => pr
  | JArr _ => JBuiltin BArrayProto
  | JBuiltin BObjectProto => JNull
  | JBuiltin (BFn _) => JBuiltin BFunctionProto
  | JBuiltin _ => object_prototype
  | JStr _ => JBuiltin BStringProto
  | JNum _ => JBuiltin BNumberProto
  | JBool _ => JBuiltin BBooleanProto
  | JUndef | JNull => JNull
  end.

Definition native_or (o : option native) (dflt : jsval) : jsval :=
  match o with Some f => fn f | None => dflt end.

(** A read that reaches Object.prototype; the __proto__ accessor there
    returns the prototype of the receiver. *)
Definition object_proto_get (recv : jsval) (k : string) : jsval :=
  if String.eqb k "__proto__" then proto_of recv
  else native_or (object_member k) JUndef.

(** A read that reaches a built-in object.  The own "length" and "name"
    of native functions are not modelled: no property of a function is
    read by the code. *)
Definition builtin_get (recv : jsval) (b : builtin) (k : string) : jsval :=
  match b with
  | BObjectProto => object_proto_get recv k
  | BArrayProto =>
      if String.eqb k "length" then JNum (Fin 0)
      else native_or (array_member k) (object_proto_get recv k)
  | BFunctionProto | BFn _ =>
      if String.eqb k "length" then JNum (Fin 0)
      else if String.eqb k "name" then JStr ""
      else native_or (function_member k) (object_proto_get recv k)
  | BStringProto =>
      if String.eqb k "length" then JNum (Fin 0)
      else native_or (string_member k) (object_proto_get recv k)
  | BNumberProto => native_or (number_member k) (object_proto_get recv k)
  | BBooleanProto => native_or (boolean_member k) (object_proto_get recv k)
  end.

Fixpoint assoc (k : string) (ps : list (string * jsval)) : option jsval :=
  match ps with
  | (k', v) :: r => if String.eqb k' k then Some v else assoc k r
  | [] => None
  end.

Definition len_number (n : nat) : number := Fin (inject_Z (Z.of_nat n)).

(** [[Get]] of key [k] on object [o] with receiver [recv], walking the
    prototype chain.  Null ends the chain; a primitive is never a
    prototype. *)
Fixpoint get_from (recv o : jsval) (k : string) : jsval :=
  match o with
  | JObj ps pr =>
      match assoc k ps with
      | Some v => v
      | None => get_from recv pr k
      end
  | JArr l =>
      if String.eqb k "length" then JNum (len_number (List.length l))
      else match array_index k with
           | Some i => nth i l JUndef
           | None => builtin_get recv BArrayProto k
           end
  | JBuiltin b => builtin_get recv b k
  | _ => JUndef
  end.

(** o[k] on an object [o]. *)
Definition get (o : jsval) (k : string) : jsval := get_from o o k.

(** The member expression v[k] on any value: reading a property of null
    or undefined throws a TypeError ([None]). *)
Definition read (v : jsval) (k : string) : option jsval :=
  match v with
  | JUndef | JNull => None
  | JStr s =>
      if String.eqb k "length" then Some (JNum (len_number (String.length s)))
      else match array_index k with
           | Some i =>
               match String.get i s with
               | Some c => Some (JStr (String c ""))
               | None => Some JUndef
               end
           | None => Some (builtin_get v BStringProto k)
           end
  | JNum _ => Some (builtin_get v BNumberProto k)
  | JBool _ => Some (builtin_get v BBooleanProto k)
  | _ => Some (get v k)
  end.

(** The typeof operator. *)
Definition typeof (v : jsval) : string :=
  match v with
  | JUndef => "undefined"
  | JNull => "object"
  | JBool _ => "boolean"
  | JNum _ => "number"
  | JStr _ => "string"
  | JArr _ | JObj _ _ => "object"
  | JBuiltin (BFn _) => "function"
  | JBuiltin _ => "object"
  end.

(** ToBoolean. *)
Definition truthy (v : jsval) : bool :=
  match v with
  | JUndef | JNull => false
  | JBool b => b
  | JNum (Fin q) => negb (Qeq_bool q 0)
  | JNum NaN => false
  | JNum _ => true
  | JStr s => negb (String.eqb s "")
  | _ => true
  end.

Definition is_object (v : jsval) : bool :=
  match v with JArr _ | JObj _ _ | JBuiltin _ => true | _ => false end.

Definition is_callable (v : jsval) : bool :=
  match v with JBuiltin (BFn _) => true | _ => false end.

Definition is_nullish (v : jsval) : bool :=
  match v with JUndef | JNull => true | _ => false end.

(** Number.isFinite. *)
Definition Number_isFinite (v : jsval) : bool :=
  match v with JNum n => finite n | _ => false end.

(** Array.isArray together with the elements of the array. *)
Definition array_elems (v : jsval) : option (list jsval) :=
  match v with
  | JArr l => Some l
  | JBuiltin BArrayProto => Some []
  | _ => None
  end.

(** Object.keys on an object: built-in objects have no enumerable own
    property. *)
Definition object_keys (o : jsval) : list string :=
  match o with
  | JObj ps _ => map fst ps
  | JArr l => map nat_to_string (seq 0 (List.length l))
  | _ => []
  end.

(* ------------------------------------------------------------------ *)
(** * Property assignment on an ordinary object *)

Definition has_own (k : string) (ps : list (string * jsval)) : bool :=
  match assoc k ps with Some _ => true | None => false end.

Definition update_prop (k : string) (v : jsval) (ps : list (string * jsval))
  : list (string * jsval) :=
  map (fun kv => if String.eqb (fst kv) k then (fst kv, v) else kv) ps.

(** A new own property goes after the other keys, except that array
    indices come first, in ascending order. *)
Fixpoint insert_index (i : nat) (k : string) (v : jsval)
    (ps : list (string * jsval)) : list (string * jsval) :=
  match ps with
  | (k', v') :: r =>
      match array_index k' with
      | Some j => if i <? j then (k, v) :: ps else (k', v') :: insert_index i k v r
      | None => (k, v) :: ps
      end
  | [] => [(k, v)]
  end.

Definition insert_prop (k : string) (v : jsval) (ps : list (string * jsval))
  : list (string * jsval) :=
  match array_index k with
  | Some i => insert_index i k v ps
  | None => ps ++ [(k, v)]
  end.

(** Whether the __proto__ accessor of Object.prototype is the property
    found for "__proto__" along a prototype chain. *)
Fixpoint proto_accessor_reachable (pr : jsval) : bool :=
  match pr with
  | JObj ps pr' => if has_own "__proto__" ps then false else proto_accessor_reachable pr'
  | JArr _ | JBuiltin _ => true
  | _ => false
  end.

(** o[k] = v on an ordinary object.  An own property is overwritten in
    place.  Otherwise the only setter on the prototype chains of the
    model is __proto__, which replaces the prototype when [v] is an
    object or null and does nothing else (a cycle cannot arise: the
    object assigned to is fresh); every other key creates an own data
    property. *)
Definition set_prop (o : jsval) (k : string) (v : jsval) : jsval :=
  match o with
  | JObj ps pr =>
      if has_own k ps then JObj (update_prop k v ps) pr
      else if String.eqb k "__proto__" && proto_accessor_reachable pr then
        (if is_object v || match v with JNull => true | _ => false end
         then JObj ps v else o)
      else JObj (insert_prop k v ps) pr
  | _ => o
  end.

(* ------------------------------------------------------------------ *)
(** * Number(v) *)

(** ToNumber on a primitive. *)
Definition prim_to_number (v : jsval) : number :=
  match v with
  | JUndef => NaN
  | JNull => Fin 0%Q
  | JBool b => if b then Fin 1%Q else Fin 0%Q
  | JNum n => n
  | JStr s => string_to_number s
  | _ => NaN
  end.

(** ToNumber (ToString p) on a primitive: "undefined", "null", "true"
    and "false" read as NaN; the string of a number reads back as that
    number. *)
Definition prim_string_number (v : jsval) : number :=
  match v with
  | JNum n => n
  | JStr s => string_to_number s
  | _ => NaN
  end.

(** ToLength. *)
Definition to_length (n : number) : Z :=
  match n with
  | Fin q => Z.max 0 (Z.min (Qfloor q) (2 ^ 53 - 1))
  | PosInf => (2 ^ 53 - 1)%Z
  | _ => 0%Z
  end.

Definition is_none {A} (o : option A) : bool :=
  match o with None => true | Some _ => false end.

(** ToNumber of the primitive that OrdinaryToPrimitive gives for an
    object, with hint number ([hint_number = true]: valueOf first) or
    hint string (toString first).  [None] is a thrown TypeError.  Every
    built-in that a toString or valueOf lookup can find returns a string
    or the object itself, so only the number the string reads as is
    kept: "[object Object]" and native function sources read as NaN, a
    join reads as 0 when empty, as its single element when it has one,
    and as NaN (it holds a comma) otherwise.  The wrapper prototypes'
    methods throw on an object receiver ([NOther]).  [fuel] bounds the
    nesting of conversions; [Number] below gives the size of the value,
    which every nested conversion (of a part of the object) lowers. *)
Fixpoint object_to_number (fuel : nat) (hint_number : bool) (o : jsval)
    {struct fuel} : option number :=
  match fuel with
  | O => None
  | S fuel' =>
      let to_num v :=
        if is_object v then object_to_number fuel' true v
        else Some (prim_to_number v) in
      let string_num v :=
        if is_object v then object_to_number fuel' false v
        else Some (prim_string_number v) in
      let join (this : jsval) : option number :=
        match to_num (get this "length") with
        | None => None
        | Some l =>
            let parts :=
              map (fun i =>
                     let e := get this (nat_to_string i) in
                     if is_nullish e then Some (Fin 0%Q) else string_num e)
                  (seq 0 (Z.to_nat (to_length l))) in
            if existsb is_none parts then None
            else match parts with
                 | [] => Some (Fin 0%Q)
                 | [n] => n
                 | _ => Some NaN
                 end
        end in
      (* [Some None]: the call returned an object *)
      let call (f : native) (this : jsval) : option (option number) :=
        match f with
        | NObjValueOf => Some None
        | NObjToString => Some (Some NaN)
        | NFnToString => if is_callable this then Some (Some NaN) else None
        | NArrToString =>
            match get this "join" with
            | JBuiltin (BFn NArrJoin) => option_map Some (join this)
            | j => if is_callable j then None else Some (Some NaN)
            end
        | NArrJoin => option_map Some (join this)
        | NOther _ _ => None
        end in
      let try_method (m : string) (next : option number) : option number :=
        match get o m with
        | JBuiltin (BFn f) =>
            match call f o with
            | None => None
            | Some (Some n) => Some n
            | Some None => next
            end
        | _ => next
        end in
      if hint_number then try_method "valueOf" (try_method "toString" None)
      else try_method "toString" (try_method "valueOf" None)
  end.

Fixpoint jsize (v : jsval) : nat :=
  match v with
  | JArr l => S ((fix sz (l : list jsval) : nat :=
                    match l with [] => 0 | x :: r => jsize x + sz r end) l)
  | JObj ps pr => S ((fix sz (ps : list (string * jsval)) : nat :=
                        match ps with [] => 0 | (_, x) :: r => jsize x + sz r end) ps
                     + jsize pr)
  | _ => 1
  end.

(** Number(v); [None] when the conversion throws a TypeError. *)
Definition Number (v : jsval) : option number :=
  if is_object v then object_to_number (jsize v) true v
  else Some (prim_to_number v).

(* ------------------------------------------------------------------ *)
(** * ChartPreview (App.jsx, lines 302-342) *)

Record chart_structure : Type := {
  xKey : string;
  yKeys : list string
}.

(** row && typeof row === "object" *)
Definition is_object_row (row : jsval) : bool :=
  truthy row && String.eqb (typeof row) "object".

(** ["string", "number"].includes(typeof value) *)
Definition is_category_value (value : jsval) : bool :=
  existsb (String.eqb (typeof value)) ["string"; "number"].

(** The memo [chartStructure]; [None] is the code's null. *)
Definition chartStructure (data : jsval) : option chart_structure :=
  match array_elems data with
  | None => None
  | Some [] => None
  | Some rows =>
      match find is_object_row rows with
      | None => None
      | Some sample =>
          let possibleKeys := object_keys sample in
          if List.length possibleKeys =? 0 then None else
          let xKey := find (fun key => is_category_value (get sample key)) possibleKeys in
          match xKey with
          | None => None                                  (* !undefined *)
          | Some xKey =>
              if negb (truthy (JStr xKey)) then None else     (* !xKey *)
              let yKeys :=
                filter (fun key =>
                          if String.eqb key xKey then false
                          else let value := get sample key in
                               String.eqb (typeof value) "number"
                               && Number_isFinite value)
                       possibleKeys in
              if List.length yKeys =? 0 then None
              else Some {| xKey := xKey; yKeys := yKeys |}
          end
      end
  end.

(** The body of the map callback of [sanitized]: the value keys in
    order, then the category key, assigned on a fresh {}. *)
(** The forEach over the value keys in the map callback of
    [sanitized]: entry[key] = Number.isFinite(Number(row[key])) ? value
    : null. *)
Fixpoint fill_entry (row entry : jsval) (keys : list string) : option jsval :=
  match keys with
  | [] => Some entry
  | key :: keys' =>
      match Number (get row key) with
      | None => None
      | Some value =>
          fill_entry row
            (set_prop entry key (if finite value then JNum value else JNull)) keys'
      end
  end.

(** The map callback of [sanitized]: the value keys in order, then the
    category key, assigned on a fresh {}. *)
Definition sanitize_row (cs : chart_structure) (row : jsval) : option jsval :=
  match fill_entry row (plain []) (yKeys cs) with
  | None => None
  | Some entry => Some (set_prop entry (xKey cs) (get row (xKey cs)))
  end.

Fixpoint map_option {A B} (f : A -> option B) (l : list A) : option (list B) :=
  match l with
  | [] => Some []
  | x :: r =>
      match f x with
      | None => None
      | Some y => match map_option f r with None => None | Some ys => Some (y :: ys) end
      end
  end.

(** The memo [sanitized]; [None] is a TypeError thrown while rendering
    (a row value whose conversion to a number throws). *)
Definition sanitized (cs : option chart_structure) (data : jsval)
  : option (list jsval) :=
  match cs with
  | None => Some []
  | Some s =>
      match array_elems data with
      | None => None
      | Some rows => map_option (sanitize_row s) (filter is_object_row rows)
      end
  end.

(** What ChartPreview derives from its [data] prop: the structure and
    the rows handed to the chart. *)
Definition chart_preview (data : jsval) : option chart_structure * option (list jsval) :=
  let cs := chartStructure data in (cs, sanitized cs data).

Definition num (z : Z) : jsval := JNum (Fin (inject_Z z)).

(* ------------------------------------------------------------------ *)
(** * The controller: App and handleQuery (App.jsx, lines 13-53) *)

(** The state hooks of App. *)
Record ui_state : Type := {
  query : string;
  sqlOutput : jsval;
  latency : jsval;
  chartData : jsval;
  isLoading : bool;
  error : jsval
}.

Definition initial_state : ui_state :=
  {| query := ""; sqlOutput := JStr ""; latency := JNull; chartData := JNull;
     isLoading := false; error := JStr "" |}.

(** What the awaited calls produce: [fetch] or [response.json()]
    rejecting (network failure, body that is not JSON), or the parsed
    body. *)
Inductive net_outcome : Type :=
| NetFailure
| NetBody (data : jsval).

(** The effects of one run of handleQuery, in program order: the state
    setters, and the POST of {question: query}. *)
Inductive effect : Type :=
| Fetch (question : string)
| SetSqlOutput (v : jsval)
| SetLatency (v : jsval)
| SetChartData (v : jsval)
| SetIsLoading (b : bool)
| SetError (v : jsval).

Definition connection_error : string :=
  "There was a problem connecting to the server.".

(** data.latency ?? null *)
Definition nullish_default (v dflt : jsval) : jsval :=
  if is_nullish v then dflt else v.

(** The catch block. *)
Definition catch_effects : list effect :=
  [SetSqlOutput (JStr ""); SetLatency JNull; SetChartData JNull;
   SetError (JStr connection_error)].

(** data[k] once data is known not to be null or undefined. *)
Definition prop (data : jsval) (k : string) : jsval :=
  match read data k with Some v => v | None => JUndef end.

(** The try block after the awaits; reading data.results of null throws
    into the catch block. *)
Definition body_effects (data : jsval) : list effect :=
  match read data "results" with
  | None => catch_effects
  | Some results =>
      if truthy results then
        [SetSqlOutput (prop data "sql_query");
         SetLatency (nullish_default (prop data "latency") JNull);
         SetChartData (prop data "results")]
      else
        [SetSqlOutput (JStr "Error generating SQL query");
         SetLatency JNull;
         SetChartData JNull;
         SetError (if truthy (prop data "detail") then prop data "detail"
                   else JStr "Unable to generate SQL query.")]
  end.

(** handleQuery, reading [query] from the state it closed over, given
    how the request settles. *)
Definition handleQuery (query : string) (outcome : net_outcome) : list effect :=
  if String.eqb (trim query) "" then [] else
  [SetError (JStr ""); SetIsLoading true; Fetch query]
  ++ match outcome with
     | NetFailure => catch_effects
     | NetBody data => body_effects data
     end
  ++ [SetIsLoading false].

Definition apply_effect (st : ui_state) (e : effect) : ui_state :=
  match e with
  | Fetch _ => st
  | SetSqlOutput v =>
      {| query := query st; sqlOutput := v; latency := latency st;
         chartData := chartData st; isLoading := isLoading st; error := error st |}
  | SetLatency v =>
      {| query := query st; sqlOutput := sqlOutput st; latency := v;
         chartData := chartData st; isLoading := isLoading st; error := error st |}
  | SetChartData v =>
      {| query := query st; sqlOutput := sqlOutput st; latency := latency st;
         chartData := v; isLoading := isLoading st; error := error st |}
  | SetIsLoading b =>
      {| query := query st; sqlOutput := sqlOutput st; latency := latency st;
         chartData := chartData st; isLoading := b; error := error st |}
  | SetError v =>
      {| query := query st; sqlOutput := sqlOutput st; latency := latency st;
         chartData := chartData st; isLoading := isLoading st; error := v |}
  end.

(** The state once the run has settled and its updates are applied. *)
Definition submit (st : ui_state) (outcome : net_outcome) : ui_state :=
  fold_left apply_effect (handleQuery (query st) outcome) st.

(* ------------------------------------------------------------------ *)
(** * Latency cards (App.jsx, lines 55-94) *)

Definition digit_char (d : Z) : ascii := ascii_of_nat (48 + Z.to_nat d).

(** The decimal digits of a non-negative integer, most significant
    first, in front of [acc]. *)
Fixpoint z_digits (fuel : nat) (n : Z) (acc : list ascii) : list ascii :=
  match fuel with
  | O => acc
  | S fuel' =>
      let acc' := digit_char (n mod 10) :: acc in
      if (n <? 10)%Z then acc' else z_digits fuel' (n / 10) acc'
  end.

(** The digits of the decimal representation of [n] with no leading
    zero ("0" for 0); a number has at most log2 n + 1 digits. *)
Definition decimal_digits (n : Z) : list ascii :=
  z_digits (S (Z.to_nat (Z.log2 n))) n [].

(** The value the template `${v}s` and the em dash "—" of formatLatency
    stand for: [Dash] is "—", [Text s] the string [s]. *)
Inductive latency_text : Type :=
| Dash
| Text (s : string).

Section Formatting.

(** Number::toString of a finite number of at least 10^21, which is
    written in exponential notation ("1e+21"); the shortest round-trip
    digits it picks are left open, and the results below hold for any
    choice of them. *)
Variable large_number_to_string : Q -> string.

(** Number.prototype.toFixed with fractionDigits 2: non-finite numbers
    give their ToString; otherwise the sign, then for |x| >= 10^21 the
    ToString of |x|, else the integer n nearest to 100 |x| (the larger
    one on a tie) written with at least one digit before the point and
    exactly two after it. *)
Definition toFixed2 (x : number) : string :=
  match x with
  | NaN => "NaN"
  | PosInf => "Infinity"
  | NegInf => "-Infinity"
  | Fin q =>
      let neg := negb (Qle_bool 0 q) in
      let s := if neg then "-" else "" in
      let x := if neg then (- q)%Q else q in
      if Qle_bool (inject_Z (10 ^ 21)) x then s ++ large_number_to_string x
      else
        let n := Qfloor (x * 100 + (1 # 2)) in
        let m := decimal_digits n in
        let k := List.length m in
        let m := if k <=? 2 then (repeat "0"%char (3 - k) ++ m)%list else m in
        let k := List.length m in
        s ++ string_of_list_ascii (firstn (k - 2) m ++ "."%char :: skipn (k - 2) m)%list
  end.

(** formatLatency; [None] when Number(value) throws a TypeError. *)
Definition formatLatency (value : jsval) : option latency_text :=
  if is_nullish value then Some Dash    (* value === undefined || value === null *)
  else match Number value with
       | None => None
       | Some NaN => Some Dash           (* Number.isNaN(Number(value)) *)
       | Some _ =>
           match Number value with
           | None => None
           | Some n => Some (Text (toFixed2 n ++ "s"))
           end
       end.

(** latency?.k *)
Definition optional_get (v : jsval) (k : string) : jsval :=
  if is_nullish v then JUndef
  else match read v k with Some r => r | None => JUndef end.

(** The memo [latencyStats]; the icon of each card (an emoji) is a
    constant the logic never reads and is left out. *)
Record latency_stat : Type := {
  label : string;
  value : jsval;
  accent : string
}.

Definition latencyStats (latency : jsval) : list latency_stat :=
  [{| label := "SQL Generation"; value := optional_get latency "sql_generation_time";
      accent := "from-sky-400/60 to-blue-500/60" |};
   {| label := "SQL Execution"; value := optional_get latency "sql_execution_time";
      accent := "from-emerald-400/60 to-teal-500/60" |};
   {| label := "Total Time"; value := optional_get latency "total_time";
      accent := "from-fuchsia-400/60 to-violet-500/60" |}].

(** The latency snapshot: each card's label and formatLatency of its
    value, in order; [None] when one of them throws. *)
Definition latency_cards (latency : jsval) : option (list (string * latency_text)) :=
  map_option (fun stat => option_map (pair (label stat)) (formatLatency (value stat)))
    (latencyStats latency).

End Formatting.

(* ------------------------------------------------------------------ *)
(** * Rendering (App.jsx, lines 96-298 and 344-374) *)

(** Whether React accepts a value as a child {v}: strings and numbers
    render as text, null, undefined, booleans and functions render
    nothing, an array renders its elements, and any other object throws
    "Objects are not valid as a React child". *)
Fixpoint valid_child (v : jsval) : bool :=
  match v with
  | JObj _ _ => false
  | JArr l => forallb valid_child l
  | JBuiltin (BFn _) => true
  | JBuiltin _ => false
  | _ => true
  end.

Definition colors : list string :=
  ["#34d399"; "#60a5fa"; "#fbbf24"; "#f472b6"; "#38bdf8"].

(** chartStructure.yKeys.map((key, index) => <Bar dataKey={key}
    fill={colors[index % colors.length]} />) *)
Definition bars (ks : list string) : list (string * string) :=
  map (fun ik => (snd ik, nth (fst ik mod List.length colors) colors ""))
      (combine (seq 0 (List.length ks)) ks).

Inductive chart_render : Type :=
| NoData                                 (* "No data available yet. ..." *)
| BarChart (rows : list jsval) (xAxis : string) (series : list (string * string)).

(** What ChartPreview renders; [None] when rendering throws. *)
Definition ChartPreview (data : jsval) : option chart_render :=
  let cs := chartStructure data in
  match sanitized cs data with
  | None => None
  | Some rows =>
      match cs with
      | None => Some NoData
      | Some s =>
          if List.length rows =? 0 then Some NoData
          else Some (BarChart rows (xKey s) (bars (yKeys s)))
      end
  end.

Inductive sql_panel : Type :=
| SqlText (v : jsval)                    (* <pre>{sqlOutput}</pre> *)
| AwaitingQuery.                         (* "Awaiting your next brilliant query" *)

(** {error && <div>{error}</div>}: the box, or the falsy value itself. *)
Inductive error_slot : Type :=
| ErrorBox (e : jsval)
| NoErrorBox (falsy : jsval).

(** The parts of the page the state decides. *)
Record page : Type := {
  status_badge : string;
  generate_disabled : bool;
  generate_label : string;
  latency_view : list (string * latency_text);
  sql_view : sql_panel;
  error_view : error_slot;
  chart_view : chart_render
}.

(** The render of App; [None] when it throws. *)
Definition render (large_number_to_string : Q -> string) (st : ui_state) : option page :=
  match latency_cards large_number_to_string (latency st) with
  | None => None
  | Some cards =>
      if truthy (sqlOutput st) && negb (valid_child (sqlOutput st)) then None else
      if negb (valid_child (error st)) then None else
      match ChartPreview (chartData st) with
      | None => None
      | Some chart =>
          Some {| status_badge := if isLoading st then "Running..." else "Ready";
                  generate_disabled := isLoading st;
                  generate_label := if isLoading st then "Running Query" else "Generate SQL";
                  latency_view := cards;
                  sql_view := if truthy (sqlOutput st) then SqlText (sqlOutput st)
                              else AwaitingQuery;
                  error_view := if truthy (error st) then ErrorBox (error st)
                                else NoErrorBox (error st);
                  chart_view := chart |}
      end
  end.

(* ------------------------------------------------------------------ *)
(** * Events (App.jsx, lines 172-215) *)

Definition suggestions : list string :=
  ["Show me the top 5 products by revenue last quarter";
   "How many users signed up this month compared to last?";
   "Total orders per region for the previous year";
   "Average session duration for premium customers"].

(** The part of handleQuery that runs on the click, before the first
    await, and the part that runs when the request settles. *)
Definition dispatch_effects (q : string) : list effect :=
  [SetError (JStr ""); SetIsLoading true; Fetch q].

Definition settle_effects (outcome : net_outcome) : list effect :=
  match outcome with
  | NetFailure => catch_effects
  | NetBody data => body_effects data
  end ++ [SetIsLoading false].

(** setQuery *)
Definition set_query (st : ui_state) (q : string) : ui_state :=
  {| query := q; sqlOutput := sqlOutput st; latency := latency st;
     chartData := chartData st; isLoading := isLoading st; error := error st |}.

(** The state of App and the question of the request in flight. *)
Record app : Type := {
  ui : ui_state;
  in_flight : option string
}.

Definition initial_app : app := {| ui := initial_state; in_flight := None |}.

Inductive event : Type :=
| Edit (s : string)                      (* onChange of the input *)
| PickSuggestion (i : nat)               (* a suggestion chip *)
| ClickGenerate                          (* the Generate SQL button *)
| Respond (outcome : net_outcome).       (* the request settles *)

(** One event.  The button is disabled while loading, so a click then
    does nothing; a response with no request in flight cannot occur and
    changes nothing. *)
Definition step (a : app) (e : event) : app :=
  match e with
  | Edit s => {| ui := set_query (ui a) s; in_flight := in_flight a |}
  | PickSuggestion i =>
      match nth_error suggestions i with
      | Some s => {| ui := set_query (ui a) s; in_flight := in_flight a |}
      | None => a
      end
  | ClickGenerate =>
      if isLoading (ui a) then a
      else if String.eqb (trim (query (ui a))) "" then a
      else {| ui := fold_left apply_effect (dispatch_effects (query (ui a))) (ui a);
              in_flight := Some (query (ui a)) |}
  | Respond o =>
      match in_flight a with
      | None => a
      | Some _ => {| ui := fold_left apply_effect (settle_effects o) (ui a);
                     in_flight := None |}
      end
  end.

Definition run (a : app) (evs : list event) : app := fold_left step evs a.

(* ------------------------------------------------------------------ *)
(** * Readings of the specification, compared with the code *)

(** The shape inference as the specification words it (section 4.2,
    steps 1-4): no chart unless the input is a non-empty array with a
    non-null object row; the category key is the first field of the
    first such row whose value is a string or a number; the value keys
    are the other fields whose value there is a finite number; no chart
    when there is none. *)
Definition chart_shape_spec (data : jsval) : option chart_structure :=
  match array_elems data with
  | None | Some [] => None
  | Some rows =>
      match find (fun r => String.eqb (typeof r) "object" && negb (is_nullish r)) rows with
      | None => None
      | Some sample =>
          let fields := object_keys sample in
          match find (fun k => is_category_value (get sample k)) fields with
          | None => None
          | Some cat =>
              match filter (fun k => negb (String.eqb k cat)
                                     && Number_isFinite (get sample k)) fields with
              | [] => None
              | vals => Some {| xKey := cat; yKeys := vals |}
              end
          end
      end
  end.

(** A sanitized row in which the entries of the keys [ks] that hold null
    read as 0, as Number(null) gives. *)
Definition null_to_zero (ks : list string) (entry : jsval) : jsval :=
  match entry with
  | JObj ps pr =>
      JObj (map (fun kv =>
                   if existsb (String.eqb (fst kv)) ks then
                     match snd kv with
                     | JNull => (fst kv, JNum (Fin 0%Q))
                     | _ => kv
                     end
                   else kv) ps) pr
  | v => v
  end.

(** The number of times a run sets the loading flag back to false. *)
Definition loading_resets (l : list effect) : nat :=
  List.length (filter (fun e => match e with SetIsLoading false => true | _ => false end) l).

Definition with_query (q : string) : ui_state :=
  {| query := q; sqlOutput := JStr ""; latency := JNull; chartData := JNull;
     isLoading := false; error := JStr "" |}.

(** The response body of the example of section 8. *)
Definition sample_response : jsval :=
  plain [("results", JArr [plain [("region", JStr "west"); ("sales", num 10)];
                           plain [("region", JStr "east"); ("sales", num 20)]]);
         ("sql_query", JStr "SELECT ...");
         ("latency", plain [("total_time", JNum (Fin (1 # 2)))])].

(* ================================================================== *)
(** * The controller *)

Lemma submit_unfold (st : ui_state) (o : net_outcome) :
  submit st o = fold_left apply_effect (handleQuery (query st) o) st.
Proof. reflexivity. Qed.

Lemma handleQuery_nonempty (q : string) (o : net_outcome) :
  trim q <> "" ->
  handleQuery q o =
  ([SetError (JStr ""); SetIsLoading true; Fetch q]
   ++ match o with NetFailure => catch_effects | NetBody data => body_effects data end
   ++ [SetIsLoading false])%list.
Proof.
  intros H. unfold handleQuery.
  destruct (String.eqb_spec (trim q) "") as [E|E]; [contradiction|reflexivity].
Qed.

Lemma read_not_nullish (data : jsval) (v : jsval) (k : string) :
  read data k = Some v -> prop data k = v.
Proof. intros H. unfold prop. rewrite H. reflexivity. Qed.

(** C7: a question that is empty after trimming is a no-op: no effect
    at all (no request), and the state is unchanged. *)
Theorem submit_blank_noop (st : ui_state) (o : net_outcome) :
  trim (query st) = "" -> handleQuery (query st) o = [] /\ submit st o = st.
Proof.
  intros H. unfold submit, handleQuery. rewrite H. simpl. split; reflexivity.
Qed.

Lemma submit_blank_noop_witness :
  trim "   " = "" /\
  handleQuery "   " (NetBody sample_response) = [] /\
  submit (with_query "   ") (NetBody sample_response) = with_query "   ".
Proof.
  split; [reflexivity|].
  apply (submit_blank_noop (with_query "   ") (NetBody sample_response)).
  reflexivity.
Defined.

(** C6: a transport failure clears sql to "", latency and chartData to
    null, and reports the fixed connection message. *)
Theorem submit_transport_failure (st : ui_state) :
  trim (query st) <> "" ->
  submit st NetFailure =
  {| query := query st; sqlOutput := JStr ""; latency := JNull;
     chartData := JNull; isLoading := false; error := JStr connection_error |}.
Proof.
  intros H. rewrite submit_unfold, handleQuery_nonempty by exact H.
  destruct st; reflexivity.
Qed.

Lemma submit_transport_failure_witness :
  trim "top regions" <> "" /\
  submit (with_query "top regions") NetFailure =
  {| query := "top regions"; sqlOutput := JStr ""; latency := JNull;
     chartData := JNull; isLoading := false; error := JStr connection_error |}.
Proof.
  split; [discriminate|].
  apply (submit_transport_failure (with_query "top regions")). discriminate.
Defined.

(** The state after a settled run of the error branch. *)
Definition app_error_state (st : ui_state) (data : jsval) : ui_state :=
  {| query := query st; sqlOutput := JStr "Error generating SQL query";
     latency := JNull; chartData := JNull; isLoading := false;
     error := if truthy (prop data "detail") then prop data "detail"
              else JStr "Unable to generate SQL query." |}.

(** The state after a settled run of the success branch. *)
Definition success_state (st : ui_state) (data results : jsval) : ui_state :=
  {| query := query st; sqlOutput := prop data "sql_query";
     latency := nullish_default (prop data "latency") JNull;
     chartData := results; isLoading := false; error := JStr "" |}.

Lemma submit_error_branch (st : ui_state) (data results : jsval) :
  trim (query st) <> "" ->
  read data "results" = Some results -> truthy results = false ->
  submit st (NetBody data) = app_error_state st data.
Proof.
  intros Hq Hr Ht. rewrite submit_unfold, handleQuery_nonempty by exact Hq.
  unfold body_effects. rewrite Hr, Ht. destruct st; reflexivity.
Qed.

Lemma submit_success_branch (st : ui_state) (data results : jsval) :
  trim (query st) <> "" ->
  read data "results" = Some results -> truthy results = true ->
  submit st (NetBody data) = success_state st data results.
Proof.
  intros Hq Hr Ht. rewrite submit_unfold, handleQuery_nonempty by exact Hq.
  unfold body_effects. rewrite Hr, Ht. unfold success_state.
  rewrite (read_not_nullish data results "results" Hr).
  destruct st; reflexivity.
Qed.

(** C5: a non-blank question sets loading back to false exactly once,
    as the last effect of the run, whatever the request gives: a body
    with truthy results, a body without, a body whose results cannot be
    read (null), or a rejected request. *)
Theorem submit_loading_reset_once (st : ui_state) (o : net_outcome) :
  trim (query st) <> "" ->
  loading_resets (handleQuery (query st) o) = 1 /\
  (exists pre, handleQuery (query st) o = (pre ++ [SetIsLoading false])%list) /\
  isLoading (submit st o) = false.
Proof.
  intros Hq. rewrite submit_unfold, handleQuery_nonempty by exact Hq.
  set (mid := match o with NetFailure => catch_effects | NetBody data => body_effects data end).
  assert (Hmid : loading_resets mid = 0).
  { subst mid. destruct o as [|data]; [reflexivity|].
    unfold body_effects. destruct (read data "results"); [|reflexivity].
    destruct (truthy j); reflexivity. }
  split; [|split].
  - unfold loading_resets in *. rewrite !filter_app, !length_app.
    simpl. rewrite Hmid. reflexivity.
  - exists ([SetError (JStr ""); SetIsLoading true; Fetch (query st)] ++ mid)%list.
    rewrite app_assoc. reflexivity.
  - rewrite app_assoc, fold_left_app. reflexivity.
Qed.

Lemma submit_loading_reset_once_witness :
  trim "sales by region" <> "" /\
  loading_resets (handleQuery "sales by region" (NetBody sample_response)) = 1 /\
  (exists pre, handleQuery "sales by region" (NetBody sample_response)
               = (pre ++ [SetIsLoading false])%list) /\
  isLoading (submit (with_query "sales by region") (NetBody sample_response)) = false.
Proof.
  split; [discriminate|].
  apply (submit_loading_reset_once (with_query "sales by region") (NetBody sample_response)).
  discriminate.
Defined.

(** C3 (as the code has it): when the body is readable and its results
    field is falsy or absent, sql becomes the text "Error generating SQL
    query" (not ""), latency and chartData become null, and the error is
    the detail field when it is truthy, else "Unable to generate SQL
    query.". *)
Theorem submit_application_error (st : ui_state) (data results : jsval) :
  trim (query st) <> "" ->
  read data "results" = Some results -> truthy results = false ->
  submit st (NetBody data) =
  {| query := query st; sqlOutput := JStr "Error generating SQL query";
     latency := JNull; chartData := JNull; isLoading := false;
     error := if truthy (prop data "detail") then prop data "detail"
              else JStr "Unable to generate SQL query." |}.
Proof.
  intros Hq Hr Ht. exact (submit_error_branch st data results Hq Hr Ht).
Qed.

Definition no_such_table : jsval := plain [("detail", JStr "no such table")].

Lemma submit_application_error_witness :
  trim "revenue" <> "" /\ read no_such_table "results" = Some JUndef /\
  truthy JUndef = false /\
  submit (with_query "revenue") (NetBody no_such_table) =
  {| query := "revenue"; sqlOutput := JStr "Error generating SQL query";
     latency := JNull; chartData := JNull; isLoading := false;
     error := JStr "no such table" |}.
Proof.
  split; [discriminate|]. split; [reflexivity|]. split; [reflexivity|].
  apply (submit_application_error (with_query "revenue") no_such_table JUndef);
    [discriminate|reflexivity|reflexivity].
Defined.

(** C3 fails as worded: on {"detail":"no such table"} the sql state is
    not the empty string. *)
Lemma submit_detail_sql_not_empty :
  sqlOutput (submit (with_query "revenue") (NetBody no_such_table))
  = JStr "Error generating SQL query" /\
  sqlOutput (submit (with_query "revenue") (NetBody no_such_table)) <> JStr "".
Proof.
  split; [reflexivity|]. vm_compute. discriminate.
Qed.

(** C4 (as the code has it): when the results field is truthy, sql is
    the sql_query field, latency the latency field or null when it is
    null or absent, chartData the results, and the error stays the ""
    set at dispatch. *)
Theorem submit_success (st : ui_state) (data results : jsval) :
  trim (query st) <> "" ->
  read data "results" = Some results -> truthy results = true ->
  submit st (NetBody data) =
  {| query := query st; sqlOutput := prop data "sql_query";
     latency := nullish_default (prop data "latency") JNull;
     chartData := results; isLoading := false; error := JStr "" |}.
Proof.
  intros Hq Hr Ht. exact (submit_success_branch st data results Hq Hr Ht).
Qed.

Definition sample_rows : jsval :=
  JArr [plain [("region", JStr "west"); ("sales", num 10)];
        plain [("region", JStr "east"); ("sales", num 20)]].

Lemma submit_success_witness :
  trim "sales by region" <> "" /\
  read sample_response "results" = Some sample_rows /\ truthy sample_rows = true /\
  submit (with_query "sales by region") (NetBody sample_response) =
  {| query := "sales by region"; sqlOutput := JStr "SELECT ...";
     latency := plain [("total_time", JNum (Fin (1 # 2)))];
     chartData := sample_rows; isLoading := false; error := JStr "" |}.
Proof.
  split; [discriminate|]. split; [reflexivity|]. split; [reflexivity|].
  apply (submit_success (with_query "sales by region") sample_response sample_rows);
    [discriminate|reflexivity|reflexivity].
Defined.

Definition zero_results : jsval :=
  plain [("results", num 0); ("sql_query", JStr "SELECT 1")].

(** C4 fails as worded: a results field 0 is not null, yet the sql
    state is not the sql_query field and the results are not stored. *)
Lemma submit_zero_results_not_stored :
  read zero_results "results" = Some (num 0) /\
  sqlOutput (submit (with_query "count") (NetBody zero_results))
  = JStr "Error generating SQL query" /\
  sqlOutput (submit (with_query "count") (NetBody zero_results)) <> JStr "SELECT 1" /\
  chartData (submit (with_query "count") (NetBody zero_results)) = JNull.
Proof.
  split; [reflexivity|]. split; [reflexivity|]. split; [|reflexivity].
  vm_compute. discriminate.
Qed.

(** C9: the branch is chosen by the truthiness of results: a falsy but
    non-null value (0, "", false, NaN) takes the error branch, and an
    empty array takes the success branch and is stored as chart data. *)
Theorem submit_branches_on_truthiness (st : ui_state) (data results : jsval) :
  trim (query st) <> "" ->
  read data "results" = Some results ->
  forallb (fun v => negb (truthy v)) [num 0; JStr ""; JBool false; JNum NaN] = true /\
  (truthy results = false ->
   submit st (NetBody data) = app_error_state st data) /\
  (results = JArr [] ->
   submit st (NetBody data) = success_state st data (JArr [])).
Proof.
  intros Hq Hr. split; [reflexivity|]. split.
  - intros Ht. exact (submit_error_branch st data results Hq Hr Ht).
  - intros E. subst results.
    exact (submit_success_branch st data (JArr []) Hq Hr eq_refl).
Qed.

Lemma submit_branches_on_truthiness_witness :
  trim "count" <> "" /\ read zero_results "results" = Some (num 0) /\
  forallb (fun v => negb (truthy v)) [num 0; JStr ""; JBool false; JNum NaN] = true /\
  (truthy (num 0) = false ->
   submit (with_query "count") (NetBody zero_results)
   = app_error_state (with_query "count") zero_results) /\
  (num 0 = JArr [] ->
   submit (with_query "count") (NetBody zero_results)
   = success_state (with_query "count") zero_results (JArr [])).
Proof.
  split; [discriminate|]. split; [reflexivity|].
  apply (submit_branches_on_truthiness (with_query "count") zero_results (num 0));
    [discriminate|reflexivity].
Defined.

(* ================================================================== *)
(** * Chart-shape inference *)

Lemma find_ext {A} (f g : A -> bool) (l : list A) :
  (forall x, f x = g x) -> find f l = find g l.
Proof.
  intros H. induction l as [|x r IH]; simpl; [reflexivity|].
  rewrite H. destruct (g x); [reflexivity|exact IH].
Qed.

Lemma is_object_row_non_null (r : jsval) :
  is_object_row r = String.eqb (typeof r) "object" && negb (is_nullish r).
Proof.
  unfold is_object_row.
  destruct r; simpl; rewrite ?andb_false_r; try reflexivity.
  destruct b; reflexivity.
Qed.

(** The code's inference is the specification's, except that it gives
    no chart when the category key found is the empty string. *)
Lemma chartStructure_vs_spec (data : jsval) :
  chartStructure data =
  match chart_shape_spec data with
  | Some s => if String.eqb (xKey s) "" then None else Some s
  | None => None
  end.
Proof.
  unfold chartStructure, chart_shape_spec.
  destruct (array_elems data) as [rows|]; [|reflexivity].
  destruct rows as [|r rs]; [reflexivity|].
  rewrite (find_ext is_object_row _ (r :: rs) is_object_row_non_null).
  destruct (find _ (r :: rs)) as [sample|]; [|reflexivity].
  destruct (object_keys sample) as [|k ks]; [reflexivity|].
  cbv zeta. change (List.length (k :: ks) =? 0) with false. cbv iota.
  destruct (find _ (k :: ks)) as [x|]; [|reflexivity].
  rewrite (filter_ext
             (fun key => if String.eqb key x then false
                         else String.eqb (typeof (get sample key)) "number"
                              && Number_isFinite (get sample key))
             (fun key => negb (String.eqb key x) && Number_isFinite (get sample key))).
  2:{ intros key. destruct (String.eqb key x); [reflexivity|].
      simpl. destruct (get sample key); simpl; rewrite ?andb_false_r; reflexivity. }
  change (truthy (JStr x)) with (negb (String.eqb x "")).
  set (ys := filter _ (k :: ks)). clearbody ys.
  destruct (String.eqb x "") eqn:Ex; simpl.
  - destruct ys; simpl; [reflexivity|]. rewrite Ex. reflexivity.
  - destruct ys; simpl; [reflexivity|]. rewrite Ex. reflexivity.
Qed.

Definition empty_key_rows : jsval :=
  JArr [plain [("", JStr "a"); ("v", num 1)]].

(** C1 as the code runs it: on [{"": "a", "v": 1}] the sample row has a
    string field (named "") and a finite number in another field, so
    the specification's reading infers category "" with value key "v",
    but the code's !xKey test rejects the empty name and gives no
    chart. *)
Theorem chartStructure_empty_key_divergence :
  chart_shape_spec empty_key_rows = Some {| xKey := ""; yKeys := ["v"] |} /\
  chartStructure empty_key_rows = None.
Proof. split; reflexivity. Qed.

(** C10: when the first string-or-number field of the sample row is
    named "", there is no chart. *)
Theorem chartStructure_empty_key_no_chart (data : jsval) (rows : list jsval)
    (sample : jsval) :
  array_elems data = Some rows ->
  find is_object_row rows = Some sample ->
  find (fun key => is_category_value (get sample key)) (object_keys sample) = Some "" ->
  chartStructure data = None.
Proof.
  intros Hd Hs Hk. unfold chartStructure. rewrite Hd.
  destruct rows as [|r rs]; [discriminate|]. rewrite Hs.
  destruct (object_keys sample) as [|k ks]; [discriminate|].
  cbv zeta. change (List.length (k :: ks) =? 0) with false. cbv iota.
  rewrite Hk. reflexivity.
Qed.

Lemma chartStructure_empty_key_no_chart_witness :
  array_elems empty_key_rows = Some [plain [("", JStr "a"); ("v", num 1)]] /\
  find is_object_row [plain [("", JStr "a"); ("v", num 1)]]
    = Some (plain [("", JStr "a"); ("v", num 1)]) /\
  find (fun key => is_category_value (get (plain [("", JStr "a"); ("v", num 1)]) key))
       (object_keys (plain [("", JStr "a"); ("v", num 1)])) = Some "" /\
  chartStructure empty_key_rows = None.
Proof.
  split; [reflexivity|]. split; [reflexivity|]. split; [reflexivity|].
  apply (chartStructure_empty_key_no_chart empty_key_rows
           [plain [("", JStr "a"); ("v", num 1)]] (plain [("", JStr "a"); ("v", num 1)]));
    reflexivity.
Defined.

(* ------------------------------------------------------------------ *)
(** ** Assignment on a fresh entry *)

(** The own-property list after entry[k] = v, when k is not __proto__. *)
Definition put (k : string) (v : jsval) (ps : list (string * jsval)) :=
  if has_own k ps then update_prop k v ps else insert_prop k v ps.

Definition puts (kvs : list (string * jsval)) (ps : list (string * jsval)) :=
  fold_left (fun acc kv => put (fst kv) (snd kv) acc) kvs ps.

(** Rewriting every own value with a function of its key. *)
Definition mapv (h : string -> jsval -> jsval) (ps : list (string * jsval)) :=
  map (fun kv => (fst kv, h (fst kv) (snd kv))) ps.

Lemma set_prop_put (ps : list (string * jsval)) (pr : jsval) (k : string) (v : jsval) :
  k <> "__proto__" -> set_prop (JObj ps pr) k v = JObj (put k v ps) pr.
Proof.
  intros Hk. unfold set_prop, put.
  destruct (has_own k ps); [reflexivity|].
  destruct (String.eqb_spec k "__proto__"); [contradiction|reflexivity].
Qed.

Lemma assoc_mapv (h : string -> jsval -> jsval) (k : string) ps :
  assoc k (mapv h ps) = option_map (h k) (assoc k ps).
Proof.
  induction ps as [|[k' v] r IH]; simpl; [reflexivity|].
  destruct (String.eqb_spec k' k) as [<-|]; [reflexivity|exact IH].
Qed.

Lemma has_own_mapv (h : string -> jsval -> jsval) (k : string) ps :
  has_own k (mapv h ps) = has_own k ps.
Proof. unfold has_own. rewrite assoc_mapv. destruct (assoc k ps); reflexivity. Qed.

Lemma update_prop_mapv (h : string -> jsval -> jsval) k v ps :
  update_prop k (h k v) (mapv h ps) = mapv h (update_prop k v ps).
Proof.
  induction ps as [|[k' v'] r IH]; simpl; [reflexivity|].
  rewrite IH. destruct (String.eqb_spec k' k) as [->|]; reflexivity.
Qed.

Lemma insert_index_mapv (h : string -> jsval -> jsval) i k v ps :
  insert_index i k (h k v) (mapv h ps) = mapv h (insert_index i k v ps).
Proof.
  induction ps as [|[k' v'] r IH]; simpl; [reflexivity|].
  destruct (array_index k') as [j|]; [|reflexivity].
  destruct (i <? j); simpl; [reflexivity|]. rewrite IH. reflexivity.
Qed.

Lemma insert_prop_mapv (h : string -> jsval -> jsval) k v ps :
  insert_prop k (h k v) (mapv h ps) = mapv h (insert_prop k v ps).
Proof.
  unfold insert_prop. destruct (array_index k).
  - apply insert_index_mapv.
  - unfold mapv. rewrite map_app. reflexivity.
Qed.

Lemma put_mapv (h : string -> jsval -> jsval) k v ps :
  put k (h k v) (mapv h ps) = mapv h (put k v ps).
Proof.
  unfold put. rewrite has_own_mapv.
  destruct (has_own k ps); [apply update_prop_mapv|apply insert_prop_mapv].
Qed.

Lemma puts_mapv (h : string -> jsval -> jsval) kvs ps :
  puts (mapv h kvs) (mapv h ps) = mapv h (puts kvs ps).
Proof.
  revert ps. induction kvs as [|[k v] r IH]; intros ps; simpl; [reflexivity|].
  unfold puts in *. simpl. rewrite put_mapv. apply IH.
Qed.

Lemma assoc_update_prop k v ps k' :
  assoc k' (update_prop k v ps) =
  if String.eqb k k' then (if has_own k ps then Some v else None) else assoc k' ps.
Proof.
  unfold has_own. induction ps as [|[a b] r IH]; simpl.
  - destruct (String.eqb k k'); reflexivity.
  - destruct (String.eqb_spec a k) as [->|Hak]; simpl.
    + destruct (String.eqb k k') eqn:E; [reflexivity|]. exact IH.
    + destruct (String.eqb_spec a k') as [->|Hak'].
      * destruct (String.eqb_spec k k') as [->|]; [contradiction|reflexivity].
      * exact IH.
Qed.

Lemma assoc_insert_index i k v ps k' :
  has_own k ps = false ->
  assoc k' (insert_index i k v ps) = if String.eqb k k' then Some v else assoc k' ps.
Proof.
  unfold has_own. induction ps as [|[a b] r IH]; simpl; intros Hk.
  - reflexivity.
  - destruct (String.eqb_spec a k) as [->|Hak]; [discriminate|].
    destruct (array_index a) as [j|].
    + destruct (i <? j); simpl.
      * reflexivity.
      * rewrite IH by exact Hk.
        destruct (String.eqb_spec a k') as [->|]; [|reflexivity].
        destruct (String.eqb_spec k k') as [->|]; [contradiction|reflexivity].
    + simpl. reflexivity.
Qed.

Lemma assoc_app_none k ps ps' :
  assoc k ps = None -> assoc k (ps ++ ps') = assoc k ps'.
Proof.
  induction ps as [|[a b] r IH]; simpl; intros H; [reflexivity|].
  destruct (String.eqb a k); [discriminate|]. exact (IH H).
Qed.

Lemma assoc_app_some k ps ps' v :
  assoc k ps = Some v -> assoc k (ps ++ ps') = Some v.
Proof.
  induction ps as [|[a b] r IH]; simpl; intros H; [discriminate|].
  destruct (String.eqb a k); [exact H|]. exact (IH H).
Qed.

Lemma assoc_put k v ps k' :
  assoc k' (put k v ps) = if String.eqb k k' then Some v else assoc k' ps.
Proof.
  unfold put. destruct (has_own k ps) eqn:Hk.
  - rewrite assoc_update_prop, Hk. reflexivity.
  - unfold insert_prop. destruct (array_index k).
    + apply assoc_insert_index, Hk.
    + destruct (assoc k' ps) eqn:E.
      * rewrite (assoc_app_some _ _ _ _ E).
        destruct (String.eqb_spec k k') as [->|]; [|reflexivity].
        unfold has_own in Hk. rewrite E in Hk. discriminate.
      * rewrite (assoc_app_none _ _ _ E). simpl.
        destruct (String.eqb_spec k k'); reflexivity.
Qed.

Lemma assoc_puts_notin k kvs ps :
  ~ In k (map fst kvs) -> assoc k (puts kvs ps) = assoc k ps.
Proof.
  revert ps. induction kvs as [|[a b] r IH]; intros ps Hn; simpl; [reflexivity|].
  unfold puts in *. simpl in *. rewrite IH by tauto.
  rewrite assoc_put. destruct (String.eqb_spec a k); [tauto|reflexivity].
Qed.

(** After the assignments, a key holds the last value assigned to it. *)
Lemma assoc_puts_last k v kvs ps :
  assoc k (puts (kvs ++ [(k, v)]) ps) = Some v.
Proof.
  unfold puts. rewrite fold_left_app. simpl.
  rewrite assoc_put, String.eqb_refl. reflexivity.
Qed.

Lemma assoc_puts_map (f : string -> jsval) keys ps k :
  In k keys -> assoc k (puts (map (fun key => (key, f key)) keys) ps) = Some (f k).
Proof.
  revert ps. induction keys as [|a r IH]; intros ps Hin; [destruct Hin|].
  unfold puts in *. simpl.
  destruct (in_dec string_dec k r) as [Hr|Hr].
  - apply IH, Hr.
  - destruct Hin as [->|]; [|contradiction].
    fold (puts (map (fun key => (key, f key)) r) (put k (f k) ps)).
    rewrite assoc_puts_notin.
    + rewrite assoc_put, String.eqb_refl. reflexivity.
    + rewrite map_map. simpl. rewrite map_id. exact Hr.
Qed.

(* ------------------------------------------------------------------ *)
(** ** Sanitized rows *)

(** The value the forEach assigns for key [k] of [row]. *)
Definition coerced (row : jsval) (k : string) : jsval :=
  match Number (get row k) with
  | Some value => if finite value then JNum value else JNull
  | None => JUndef
  end.

Lemma fill_entry_puts (row : jsval) (keys : list string) ps pr e :
  (forall k, In k keys -> k <> "__proto__") ->
  fill_entry row (JObj ps pr) keys = Some e ->
  e = JObj (puts (map (fun k => (k, coerced row k)) keys) ps) pr /\
  (forall k, In k keys -> Number (get row k) <> None).
Proof.
  revert ps. induction keys as [|k r IH]; intros ps Hk H; cbn [fill_entry] in H.
  - injection H as <-. split; [reflexivity|intros k []].
  - destruct (Number (get row k)) as [value|] eqn:En; [|discriminate].
    rewrite set_prop_put in H by (apply Hk; left; reflexivity).
    apply IH in H as [He Hn]; [|intros k' Hk'; apply Hk; right; exact Hk'].
    split.
    + rewrite He. unfold puts, coerced. simpl. rewrite En. reflexivity.
    + intros k' [<-|Hk']; [rewrite En; discriminate|apply Hn, Hk'].
Qed.

Lemma fill_entry_total (row : jsval) (keys : list string) ps pr :
  (forall k, In k keys -> k <> "__proto__") ->
  (forall k, In k keys -> Number (get row k) <> None) ->
  fill_entry row (JObj ps pr) keys =
  Some (JObj (puts (map (fun k => (k, coerced row k)) keys) ps) pr).
Proof.
  revert ps. induction keys as [|k r IH]; intros ps Hk Hn; cbn [fill_entry];
    [reflexivity|].
  destruct (Number (get row k)) as [value|] eqn:En.
  - rewrite set_prop_put by (apply Hk; left; reflexivity).
    rewrite IH.
    + unfold puts, coerced. simpl. rewrite En. reflexivity.
    + intros k' Hk'. apply Hk. right. exact Hk'.
    + intros k' Hk'. apply Hn. right. exact Hk'.
  - exfalso. apply (Hn k); [left; reflexivity|exact En].
Qed.


(** The keys of a structure that are not the __proto__ accessor. *)
Definition ordinary_keys (s : chart_structure) : Prop :=
  xKey s <> "__proto__" /\ ~ In "__proto__" (yKeys s).

Lemma ordinary_keys_in (s : chart_structure) :
  ordinary_keys s -> forall k, In k (yKeys s) -> k <> "__proto__".
Proof. intros [_ H] k Hk E. subst k. contradiction. Qed.

Lemma sanitize_row_shape (s : chart_structure) (row e : jsval) :
  ordinary_keys s ->
  sanitize_row s row = Some e ->
  e = JObj (puts (map (fun k => (k, coerced row k)) (yKeys s)
                  ++ [(xKey s, get row (xKey s))]) []) object_prototype /\
  (forall k, In k (yKeys s) -> Number (get row k) <> None).
Proof.
  intros Hs H. unfold sanitize_row, plain in H.
  destruct (fill_entry row (JObj [] object_prototype) (yKeys s)) as [e0|] eqn:Ef;
    [|discriminate].
  apply fill_entry_puts in Ef as [-> Hn]; [|apply ordinary_keys_in, Hs].
  rewrite set_prop_put in H by apply Hs.
  injection H as <-. split; [|exact Hn].
  unfold puts. rewrite fold_left_app. reflexivity.
Qed.

Lemma get_obj_own (ps : list (string * jsval)) (pr : jsval) (k : string) (v : jsval) :
  assoc k ps = Some v -> get (JObj ps pr) k = v.
Proof. intros H. unfold get. simpl. rewrite H. reflexivity. Qed.

(** What a sanitized row holds, when no key is __proto__: the category
    key's raw value, and for each other value key the number, or null
    when it is not finite. *)
Lemma sanitize_row_values (s : chart_structure) (row e : jsval) :
  ordinary_keys s ->
  sanitize_row s row = Some e ->
  get e (xKey s) = get row (xKey s) /\
  (forall k, In k (yKeys s) -> k <> xKey s ->
   exists value, Number (get row k) = Some value /\
                 get e k = if finite value then JNum value else JNull).
Proof.
  intros Hs H. apply sanitize_row_shape in H as [-> Hn]; [|exact Hs].
  split.
  - apply get_obj_own, assoc_puts_last.
  - intros k Hk Hx. destruct (Number (get row k)) as [value|] eqn:En;
      [|exfalso; exact (Hn k Hk En)].
    exists value. split; [reflexivity|].
    apply get_obj_own. unfold puts. rewrite fold_left_app. simpl.
    rewrite assoc_put. destruct (String.eqb_spec (xKey s) k) as [E|_];
      [symmetry in E; contradiction|].
    fold (puts (map (fun k0 => (k0, coerced row k0)) (yKeys s)) []).
    rewrite assoc_puts_map by exact Hk. unfold coerced. rewrite En. reflexivity.
Qed.

Lemma chartStructure_xKey_not_in_yKeys (data : jsval) (s : chart_structure) :
  chartStructure data = Some s -> ~ In (xKey s) (yKeys s).
Proof.
  unfold chartStructure.
  destruct (array_elems data) as [[|r rs]|]; try discriminate.
  destruct (find is_object_row (r :: rs)) as [sample|]; [|discriminate].
  cbv zeta. destruct (List.length (object_keys sample) =? 0); [discriminate|].
  destruct (find _ (object_keys sample)) as [x|]; [|discriminate].
  destruct (negb (truthy (JStr x))); [discriminate|].
  destruct (List.length (filter _ (object_keys sample)) =? 0); [discriminate|].
  intros H. injection H as <-. simpl. intros Hin.
  apply filter_In in Hin as [_ Hf]. rewrite String.eqb_refl in Hf. discriminate.
Qed.

Lemma map_option_some {A B} (f : A -> option B) (l : list A) (out : list B) :
  map_option f l = Some out -> Forall (fun y => exists x, f x = Some y) out.
Proof.
  revert out. induction l as [|x r IH]; intros out H; simpl in H.
  - injection H as <-. constructor.
  - destruct (f x) as [y|] eqn:Ef; [|discriminate].
    destruct (map_option f r) as [ys|]; [|discriminate].
    injection H as <-. constructor; [exists x; exact Ef|apply IH; reflexivity].
Qed.

Lemma map_option_pointwise {A B} (f : A -> option B) (g : A -> B) (l : list A) :
  Forall (fun x => f x = Some (g x)) l -> map_option f l = Some (map g l).
Proof.
  induction 1 as [|x r Hx _ IH]; simpl; [reflexivity|].
  rewrite Hx, IH. reflexivity.
Qed.

Lemma existsb_eqb_In (k : string) (ks : list string) :
  existsb (String.eqb k) ks = true <-> In k ks.
Proof.
  rewrite existsb_exists. split.
  - intros [k' [Hin E]]. apply String.eqb_eq in E. subst k'. exact Hin.
  - intros Hin. exists k. split; [exact Hin|apply String.eqb_refl].
Qed.

(** null becomes 0 on a second coercion; numbers stay. *)
Definition renumber (v : jsval) : jsval :=
  match v with JNull => JNum (Fin 0%Q) | _ => v end.

Lemma null_to_zero_mapv (ks : list string) ps pr :
  null_to_zero ks (JObj ps pr) =
  JObj (mapv (fun k v => if existsb (String.eqb k) ks then renumber v else v) ps) pr.
Proof.
  unfold null_to_zero, mapv. f_equal. apply map_ext. intros [k v]. simpl.
  destruct (existsb (String.eqb k) ks); [|reflexivity].
  destruct v; reflexivity.
Qed.

(** A sanitized row, sanitized again with the same structure, comes
    back with its null value entries turned into 0. *)
Lemma resanitize_row (s : chart_structure) (row e : jsval) :
  ordinary_keys s -> ~ In (xKey s) (yKeys s) ->
  sanitize_row s row = Some e ->
  is_object_row e = true /\ sanitize_row s e = Some (null_to_zero (yKeys s) e).
Proof.
  intros Hs Hx H. apply sanitize_row_shape in H as [He Hn]; [|exact Hs].
  set (ys := yKeys s) in *. set (x := xKey s) in *.
  set (kvs := map (fun k => (k, coerced row k)) ys) in *.
  set (raw := get row x) in *.
  (* the entry holds the coerced values under the value keys *)
  assert (Hget : forall k, In k ys -> get e k = coerced row k).
  { intros k Hk. rewrite He. apply get_obj_own.
    unfold puts. rewrite fold_left_app. simpl. rewrite assoc_put.
    destruct (String.eqb_spec x k) as [<-|_]; [contradiction|].
    apply assoc_puts_map, Hk. }
  assert (Hre : forall k, In k ys -> coerced e k = renumber (coerced row k)).
  { intros k Hk. unfold coerced at 1. rewrite (Hget k Hk). unfold coerced.
    destruct (Number (get row k)) as [value|] eqn:En; [|exfalso; exact (Hn k Hk En)].
    destruct (finite value) eqn:Hf; simpl; [rewrite Hf; reflexivity|reflexivity]. }
  split; [rewrite He; reflexivity|].
  unfold sanitize_row, plain. fold ys x.
  rewrite fill_entry_total.
  - rewrite set_prop_put by apply Hs.
    set (h := fun k v => if existsb (String.eqb k) ys then renumber v else v).
    assert (Hnz : null_to_zero ys e
                  = JObj (puts (mapv h (kvs ++ [(x, raw)])) []) object_prototype).
    { rewrite He, null_to_zero_mapv. fold h.
      rewrite <- puts_mapv. reflexivity. }
    rewrite Hnz.
    replace (get e x) with raw.
    2:{ symmetry. rewrite He. apply get_obj_own, assoc_puts_last. }
    unfold mapv, kvs. rewrite map_app, map_map. simpl.
    assert (Hxe : h x raw = raw).
    { unfold h. destruct (existsb (String.eqb x) ys) eqn:E; [|reflexivity].
      apply existsb_eqb_In in E. contradiction. }
    rewrite Hxe. unfold puts. rewrite fold_left_app. simpl.
    do 3 f_equal. f_equal. apply map_ext_in. intros k Hk.
    unfold h. apply existsb_eqb_In in Hk as Hk'. rewrite Hk'.
    rewrite (Hre k Hk). reflexivity.
  - apply ordinary_keys_in, Hs.
  - intros k Hk. rewrite (Hget k Hk). unfold coerced.
    destruct (Number (get row k)) as [value|] eqn:En; [|exfalso; exact (Hn k Hk En)].
    destruct (finite value); discriminate.
Qed.

(** C2 (as the code has it): sanitizing the sanitized rows again with
    the inferred structure gives them back, entries that were null now
    0, provided neither the category key nor a value key is
    "__proto__". *)
Theorem resanitize_idempotent (data : jsval) (s : chart_structure) (out : list jsval) :
  chartStructure data = Some s ->
  ordinary_keys s ->
  sanitized (Some s) data = Some out ->
  sanitized (Some s) (JArr out) = Some (map (null_to_zero (yKeys s)) out).
Proof.
  intros Hc Hs Ho. pose proof (chartStructure_xKey_not_in_yKeys data s Hc) as Hx.
  unfold sanitized in Ho |- *. simpl array_elems.
  destruct (array_elems data) as [rows|]; [|discriminate].
  apply map_option_some in Ho.
  assert (Hrow : Forall (fun e => is_object_row e = true /\
                                  sanitize_row s e = Some (null_to_zero (yKeys s) e)) out).
  { eapply Forall_impl; [|exact Ho]. intros e [row Hr].
    exact (resanitize_row s row e Hs Hx Hr). }
  rewrite (forallb_filter_id is_object_row out).
  - apply (map_option_pointwise (sanitize_row s) (null_to_zero (yKeys s))).
    eapply Forall_impl; [|exact Hrow]. intros e [_ He]. exact He.
  - apply forallb_forall. intros e He. rewrite Forall_forall in Hrow.
    apply (Hrow e He).
Qed.

Definition two_rows : jsval :=
  JArr [plain [("name", JStr "A"); ("value", num 5)];
        plain [("name", JStr "B"); ("value", JStr "oops")]].

Lemma resanitize_idempotent_witness :
  chartStructure two_rows = Some {| xKey := "name"; yKeys := ["value"] |} /\
  ordinary_keys {| xKey := "name"; yKeys := ["value"] |} /\
  sanitized (Some {| xKey := "name"; yKeys := ["value"] |}) two_rows
  = Some [plain [("value", num 5); ("name", JStr "A")];
          plain [("value", JNull); ("name", JStr "B")]] /\
  sanitized (Some {| xKey := "name"; yKeys := ["value"] |})
    (JArr [plain [("value", num 5); ("name", JStr "A")];
           plain [("value", JNull); ("name", JStr "B")]])
  = Some (map (null_to_zero ["value"])
            [plain [("value", num 5); ("name", JStr "A")];
             plain [("value", JNull); ("name", JStr "B")]]).
Proof.
  assert (Hc : chartStructure two_rows = Some {| xKey := "name"; yKeys := ["value"] |})
    by reflexivity.
  assert (Hs : ordinary_keys {| xKey := "name"; yKeys := ["value"] |}).
  { split; simpl; [discriminate|]. intros [H|[]]; discriminate. }
  assert (Ho : sanitized (Some {| xKey := "name"; yKeys := ["value"] |}) two_rows
               = Some [plain [("value", num 5); ("name", JStr "A")];
                       plain [("value", JNull); ("name", JStr "B")]]) by reflexivity.
  split; [exact Hc|]. split; [exact Hs|]. split; [exact Ho|].
  exact (resanitize_idempotent two_rows _ _ Hc Hs Ho).
Defined.

Definition one_row : jsval := JArr [plain [("name", JStr "A"); ("value", num 5)]].

(** C2 fails as worded: a sanitized row lists the value keys before the
    category key, so inference run again on the sanitized rows takes
    "value" as the category key and, with no other numeric field, gives
    no chart. *)
Lemma reinference_loses_shape :
  chartStructure one_row = Some {| xKey := "name"; yKeys := ["value"] |} /\
  sanitized (chartStructure one_row) one_row
  = Some [plain [("value", num 5); ("name", JStr "A")]] /\
  chartStructure (JArr [plain [("value", num 5); ("name", JStr "A")]]) = None.
Proof. split; [|split]; reflexivity. Qed.

Definition proto_rows : jsval :=
  JArr [plain [("__proto__", JStr "A"); ("v", num 1)]].

(** C8 at a category key named "__proto__" (JSON.parse makes it an own
    property of the row): the assignment entry["__proto__"] = "A" runs
    the __proto__ setter, which ignores a string, so the sanitized row
    does not hold the category value; reading it back gives
    Object.prototype. *)
Theorem sanitized_proto_key_dropped :
  chartStructure proto_rows = Some {| xKey := "__proto__"; yKeys := ["v"] |} /\
  sanitized (chartStructure proto_rows) proto_rows = Some [plain [("v", num 1)]] /\
  get (plain [("__proto__", JStr "A"); ("v", num 1)]) "__proto__" = JStr "A" /\
  get (plain [("v", num 1)]) "__proto__" = object_prototype.
Proof. split; [|split; [|split]]; reflexivity. Qed.

(** The example of section 8 for ChartShapeInferer. *)
Lemma chart_preview_two_rows :
  chart_preview two_rows =
  (Some {| xKey := "name"; yKeys := ["value"] |},
   Some [plain [("value", num 5); ("name", JStr "A")];
         plain [("value", JNull); ("name", JStr "B")]]).
Proof. reflexivity. Qed.

(** The no-chart examples of section 8: [], null and a row with only a
    string field. *)
Lemma chartStructure_no_chart_examples :
  chartStructure (JArr []) = None /\ chartStructure JNull = None /\
  chartStructure (JArr [plain [("label", JStr "only-strings")]]) = None.
Proof. split; [|split]; reflexivity. Qed.

Definition uncoercible_rows : jsval :=
  JArr [plain [("name", JStr "A"); ("v", num 1)];
        plain [("name", JStr "B"); ("v", plain [("valueOf", num 1); ("toString", num 1)])]].

(** Number(value) on an object whose own valueOf and toString are not
    functions throws a TypeError, so sanitization of such a row does not
    give null but aborts. *)
Lemma sanitized_uncoercible_throws :
  chartStructure uncoercible_rows = Some {| xKey := "name"; yKeys := ["v"] |} /\
  sanitized (chartStructure uncoercible_rows) uncoercible_rows = None.
Proof. split; reflexivity. Qed.

(* ================================================================== *)
(** * Beyond the specification: events, rendering and latency cards *)

(** ** Blank questions *)

Lemma drop_space_nil (l : list ascii) :
  drop_space l = [] <-> forallb is_js_space l = true.
Proof.
  induction l as [|c r IH]; simpl; [tauto|].
  destruct (is_js_space c); simpl; [exact IH|]. split; discriminate.
Qed.

Lemma drop_space_head (l : list ascii) :
  drop_space l = [] \/ exists c r, drop_space l = c :: r /\ is_js_space c = false.
Proof.
  induction l as [|c r IH]; simpl; [left; reflexivity|].
  destruct (is_js_space c) eqn:E; [exact IH|]. right. exists c, r. split; [reflexivity|exact E].
Qed.

Lemma forallb_rev {A} (f : A -> bool) (l : list A) : forallb f (rev l) = forallb f l.
Proof.
  apply Bool.eq_iff_eq_true. rewrite !forallb_forall.
  split; intros H x Hx; apply H; [apply in_rev in Hx|apply in_rev]; exact Hx.
Qed.

Lemma string_of_list_ascii_empty (l : list ascii) :
  string_of_list_ascii l = "" <-> l = [].
Proof. destruct l; simpl; split; congruence. Qed.

Lemma trim_blank (q : string) :
  String.eqb (trim q) "" = forallb is_js_space (list_of q).
Proof.
  apply Bool.eq_iff_eq_true. rewrite String.eqb_eq. unfold trim, list_of.
  rewrite string_of_list_ascii_empty.
  split.
  - intros H. apply (f_equal (@rev ascii)) in H. rewrite rev_involutive in H.
    simpl in H. apply drop_space_nil in H. rewrite forallb_rev in H.
    apply drop_space_nil.
    destruct (drop_space_head (list_ascii_of_string q)) as [E|[c [r [E Hc]]]];
      [exact E|]. rewrite E in H. simpl in H. rewrite Hc in H. discriminate.
  - intros H. apply drop_space_nil in H. rewrite H. reflexivity.
Qed.

(** handleQuery in two parts: what runs on the click, and what runs
    when the request settles. *)
Lemma handleQuery_split (q : string) (o : net_outcome) :
  handleQuery q o =
  if forallb is_js_space (list_of q) then []
  else (dispatch_effects q ++ settle_effects o)%list.
Proof.
  unfold handleQuery. rewrite trim_blank.
  destruct (forallb is_js_space (list_of q)); reflexivity.
Qed.

(** handleQuery does nothing exactly when every character of the query
    is JavaScript white space (tab, line feed, vertical tab, form feed,
    carriage return, space, no-break space); otherwise it posts the
    query as typed, surrounding white space included. *)
Theorem handleQuery_blank_iff_whitespace (q : string) (o : net_outcome) :
  (handleQuery q o = [] <-> forallb is_js_space (list_of q) = true) /\
  (forallb is_js_space (list_of q) = false ->
   exists rest, handleQuery q o = SetError (JStr "") :: SetIsLoading true :: Fetch q :: rest).
Proof.
  rewrite handleQuery_split.
  destruct (forallb is_js_space (list_of q)); split.
  - tauto.
  - discriminate.
  - split; [discriminate|]. intros H; discriminate.
  - intros _. exists (settle_effects o). reflexivity.
Qed.

Lemma handleQuery_blank_iff_whitespace_witness :
  (handleQuery " revenue " NetFailure = [] <->
   forallb is_js_space (list_of " revenue ") = true) /\
  (forallb is_js_space (list_of " revenue ") = false ->
   exists rest, handleQuery " revenue " NetFailure
                = SetError (JStr "") :: SetIsLoading true :: Fetch " revenue " :: rest).
Proof. exact (handleQuery_blank_iff_whitespace " revenue " NetFailure). Defined.

(** ** The event loop *)

Lemma fold_apply_app (l1 l2 : list effect) (st : ui_state) :
  fold_left apply_effect (l1 ++ l2) st = fold_left apply_effect l2 (fold_left apply_effect l1 st).
Proof. apply fold_left_app. Qed.

Lemma apply_effect_set_query (st : ui_state) (e : effect) (q : string) :
  apply_effect (set_query st q) e = set_query (apply_effect st e) q.
Proof. destruct e; reflexivity. Qed.

Lemma fold_apply_set_query (l : list effect) (st : ui_state) (q : string) :
  fold_left apply_effect l (set_query st q) = set_query (fold_left apply_effect l st) q.
Proof.
  revert st. induction l as [|e l IH]; intros st; simpl; [reflexivity|].
  rewrite apply_effect_set_query. apply IH.
Qed.

Lemma set_query_twice (st : ui_state) (q q' : string) :
  set_query (set_query st q) q' = set_query st q'.
Proof. reflexivity. Qed.

Lemma set_query_same (st : ui_state) : set_query st (query st) = st.
Proof. destruct st; reflexivity. Qed.

(** What a settled request leaves: loading off, and an error that is
    the one before or a truthy value. *)
Lemma settle_fields (o : net_outcome) (st : ui_state) :
  isLoading (fold_left apply_effect (settle_effects o) st) = false /\
  (error (fold_left apply_effect (settle_effects o) st) = error st \/
   truthy (error (fold_left apply_effect (settle_effects o) st)) = true).
Proof.
  unfold settle_effects. rewrite fold_apply_app. simpl. split; [reflexivity|].
  destruct o as [|data]; [right; reflexivity|].
  unfold body_effects. destruct (read data "results") as [r|]; [|right; reflexivity].
  destruct (truthy r); [left; reflexivity|]. right. simpl.
  destruct (truthy (prop data "detail")) eqn:E; [exact E|reflexivity].
Qed.

Definition app_ok (a : app) : Prop :=
  (isLoading (ui a) = true <-> in_flight a <> None) /\
  (error (ui a) = JStr "" \/ truthy (error (ui a)) = true).

Lemma step_ok (a : app) (e : event) : app_ok a -> app_ok (step a e).
Proof.
  intros [HL HE]. destruct e as [s|i| |o]; simpl.
  - split; [exact HL|exact HE].
  - destruct (nth_error suggestions i); [split; [exact HL|exact HE]|split; assumption].
  - destruct (isLoading (ui a)) eqn:El; [split; [rewrite El; exact HL|exact HE]|].
    destruct (String.eqb (trim (query (ui a))) ""); [split; [rewrite El; exact HL|exact HE]|].
    split; simpl; [split; [discriminate|reflexivity]|left; reflexivity].
  - destruct (in_flight a) as [q|] eqn:Ef; [|split; [rewrite Ef; exact HL|exact HE]].
    destruct (settle_fields o (ui a)) as [H1 H2]. split; simpl.
    + rewrite H1. split; [discriminate|congruence].
    + destruct H2 as [H2|H2]; [rewrite H2; exact HE|right; exact H2].
Qed.

Lemma run_ok (a : app) (evs : list event) : app_ok a -> app_ok (run a evs).
Proof.
  unfold run. revert a. induction evs as [|e evs IH]; intros a H; simpl; [exact H|].
  apply IH, step_ok, H.
Qed.

(** From the initial state, after any events, the page shows "Running..."
    and disables the button exactly while a request is in flight, so at
    most one request is ever in flight. *)
Theorem loading_iff_in_flight (evs : list event) :
  isLoading (ui (run initial_app evs)) = true <-> in_flight (run initial_app evs) <> None.
Proof.
  apply run_ok. split; [split; [discriminate|intros H; exfalso; apply H; reflexivity]|].
  left; reflexivity.
Qed.

(** From the initial state, after any events, the error is "" or a
    truthy value, so {error && ...} never renders a stray falsy value
    such as 0 or false. *)
Theorem error_empty_or_truthy (evs : list event) :
  error (ui (run initial_app evs)) = JStr "" \/
  truthy (error (ui (run initial_app evs))) = true.
Proof.
  apply run_ok. split; [split; [discriminate|intros H; exfalso; apply H; reflexivity]|].
  left; reflexivity.
Qed.

Definition not_response (e : event) : Prop :=
  match e with Respond _ => False | _ => True end.

Lemma run_while_loading (a : app) (evs : list event) :
  isLoading (ui a) = true -> Forall not_response evs ->
  run a evs = {| ui := set_query (ui a) (query (ui (run a evs))); in_flight := in_flight a |}.
Proof.
  unfold run. revert a. induction evs as [|e evs IH]; intros a HL HF; simpl.
  - rewrite set_query_same. destruct a; reflexivity.
  - inversion HF as [|e' evs' He HF']; subst.
    assert (Hs : step a e = {| ui := set_query (ui a) (query (ui (step a e)));
                               in_flight := in_flight a |}).
    { destruct e as [s|i| |o]; simpl in *.
      - reflexivity.
      - destruct (nth_error suggestions i); simpl; [reflexivity|].
        rewrite set_query_same. destruct a; reflexivity.
      - rewrite HL. rewrite set_query_same. destruct a; reflexivity.
      - contradiction. }
    rewrite (IH (step a e)); [|rewrite Hs; exact HL|exact HF'].
    generalize (query (ui (fold_left step evs (step a e)))) as Q. intros Q.
    rewrite Hs. reflexivity.
Qed.

(** A click on Generate SQL while idle with a non-blank query posts that
    query; whatever is typed or clicked until the response arrives only
    changes the query field, and once the response is in, the state is
    the one [submit] gives for the query clicked, except that the query
    field holds the text typed meanwhile. *)
Theorem click_then_respond (a : app) (evs : list event) (o : net_outcome) :
  isLoading (ui a) = false ->
  forallb is_js_space (list_of (query (ui a))) = false ->
  Forall not_response evs ->
  in_flight (run a (ClickGenerate :: evs)) = Some (query (ui a)) /\
  run a (ClickGenerate :: evs ++ [Respond o]) =
  {| ui := set_query (submit (ui a) o) (query (ui (run a (ClickGenerate :: evs))));
     in_flight := None |}.
Proof.
  intros HL HQ HF.
  assert (Hc : step a ClickGenerate =
               {| ui := fold_left apply_effect (dispatch_effects (query (ui a))) (ui a);
                  in_flight := Some (query (ui a)) |}).
  { simpl. rewrite HL, trim_blank, HQ. reflexivity. }
  set (a1 := step a ClickGenerate) in *.
  assert (HL1 : isLoading (ui a1) = true) by (rewrite Hc; destruct (ui a); reflexivity).
  pose proof (run_while_loading a1 evs HL1 HF) as Hr.
  change (run a (ClickGenerate :: evs)) with (run a1 evs).
  split; [rewrite Hr; simpl; rewrite Hc; reflexivity|].
  change (run a (ClickGenerate :: evs ++ [Respond o])) with (run a1 (evs ++ [Respond o])).
  unfold run at 1. rewrite fold_left_app. fold (run a1 evs). rewrite Hr. simpl.
  rewrite Hc. simpl. f_equal.
  rewrite fold_apply_set_query. f_equal.
  unfold submit. rewrite handleQuery_split, HQ. rewrite fold_apply_app. reflexivity.
Qed.

Lemma click_then_respond_witness :
  isLoading (ui (run initial_app [Edit "revenue"])) = false /\
  forallb is_js_space (list_of (query (ui (run initial_app [Edit "revenue"])))) = false /\
  Forall not_response [Edit "users"; ClickGenerate] /\
  in_flight (run (run initial_app [Edit "revenue"]) [ClickGenerate; Edit "users"; ClickGenerate])
  = Some "revenue" /\
  run (run initial_app [Edit "revenue"])
      (ClickGenerate :: [Edit "users"; ClickGenerate] ++ [Respond NetFailure]) =
  {| ui := set_query (submit (ui (run initial_app [Edit "revenue"])) NetFailure)
             (query (ui (run (run initial_app [Edit "revenue"])
                            [ClickGenerate; Edit "users"; ClickGenerate])));
     in_flight := None |}.
Proof.
  assert (HF : Forall not_response [Edit "users"; ClickGenerate])
    by (repeat constructor).
  split; [reflexivity|]. split; [reflexivity|]. split; [exact HF|].
  exact (click_then_respond (run initial_app [Edit "revenue"]) [Edit "users"; ClickGenerate]
           NetFailure eq_refl eq_refl HF).
Defined.

(** ** Pages after a settled request *)

Definition dashes : list (string * latency_text) :=
  [("SQL Generation", Dash); ("SQL Execution", Dash); ("Total Time", Dash)].

Lemma nonblank_trim (q : string) :
  forallb is_js_space (list_of q) = false -> trim q <> "".
Proof.
  intros H E. rewrite <- trim_blank, E in H. discriminate.
Qed.

Lemma render_app_error (L : Q -> string) (st : ui_state) (data results : jsval) :
  forallb is_js_space (list_of (query st)) = false ->
  read data "results" = Some results -> truthy results = false ->
  render L (submit st (NetBody data)) =
  let e := if truthy (prop data "detail") then prop data "detail"
           else JStr "Unable to generate SQL query." in
  if valid_child e then
    Some {| status_badge := "Ready"; generate_disabled := false;
            generate_label := "Generate SQL"; latency_view := dashes;
            sql_view := SqlText (JStr "Error generating SQL query");
            error_view := ErrorBox e; chart_view := NoData |}
  else None.
Proof.
  intros Hq Hr Ht.
  rewrite (submit_error_branch st data results (nonblank_trim _ Hq) Hr Ht).
  unfold app_error_state, render. simpl.
  destruct (truthy (prop data "detail")) eqn:E; simpl.
  - destruct (valid_child (prop data "detail")); simpl; [rewrite E|]; reflexivity.
  - reflexivity.
Qed.

(** After a transport failure the page is the same whatever it showed
    before: "Ready", the button enabled, every latency card "—", the SQL
    placeholder, the connection error box and no chart. *)
Theorem render_after_transport_failure (L : Q -> string) (st : ui_state) :
  forallb is_js_space (list_of (query st)) = false ->
  render L (submit st NetFailure) =
  Some {| status_badge := "Ready"; generate_disabled := false;
          generate_label := "Generate SQL"; latency_view := dashes;
          sql_view := AwaitingQuery; error_view := ErrorBox (JStr connection_error);
          chart_view := NoData |}.
Proof.
  intros H. unfold submit. rewrite handleQuery_split, H. destruct st; reflexivity.
Qed.

Lemma render_after_transport_failure_witness :
  forallb is_js_space (list_of (query (with_query "revenue"))) = false /\
  render (fun _ => "") (submit (with_query "revenue") NetFailure) =
  Some {| status_badge := "Ready"; generate_disabled := false;
          generate_label := "Generate SQL"; latency_view := dashes;
          sql_view := AwaitingQuery; error_view := ErrorBox (JStr connection_error);
          chart_view := NoData |}.
Proof.
  split; [reflexivity|].
  exact (render_after_transport_failure (fun _ => "") (with_query "revenue") eq_refl).
Defined.

(** After a body whose results field is absent or falsy, the page shows
    "Error generating SQL query" as the SQL, every latency card "—", no
    chart, and an error box holding detail (when truthy) or the fallback
    message; rendering throws when that value is not a valid React
    child (an object, or an array holding one). *)
Theorem render_after_application_error (L : Q -> string) (st : ui_state) (data results : jsval) :
  forallb is_js_space (list_of (query st)) = false ->
  read data "results" = Some results -> truthy results = false ->
  render L (submit st (NetBody data)) =
  let e := if truthy (prop data "detail") then prop data "detail"
           else JStr "Unable to generate SQL query." in
  if valid_child e then
    Some {| status_badge := "Ready"; generate_disabled := false;
            generate_label := "Generate SQL"; latency_view := dashes;
            sql_view := SqlText (JStr "Error generating SQL query");
            error_view := ErrorBox e; chart_view := NoData |}
  else None.
Proof. exact (render_app_error L st data results). Qed.

Lemma render_after_application_error_witness :
  forallb is_js_space (list_of (query (with_query "revenue"))) = false /\
  read no_such_table "results" = Some JUndef /\ truthy JUndef = false /\
  render (fun _ => "") (submit (with_query "revenue") (NetBody no_such_table)) =
  Some {| status_badge := "Ready"; generate_disabled := false;
          generate_label := "Generate SQL"; latency_view := dashes;
          sql_view := SqlText (JStr "Error generating SQL query");
          error_view := ErrorBox (JStr "no such table"); chart_view := NoData |}.
Proof.
  split; [reflexivity|]. split; [reflexivity|]. split; [reflexivity|].
  exact (render_after_application_error (fun _ => "") (with_query "revenue")
           no_such_table JUndef eq_refl eq_refl eq_refl).
Defined.

(** A FastAPI validation error body, whose detail is a list of objects
    ({"detail": [{"loc": ..., "msg": ..., "type": ...}]}), puts that
    list in the error box, and rendering it throws: the page crashes. *)
Theorem render_crashes_on_object_detail (L : Q -> string) (st : ui_state) (data results : jsval)
    (l : list jsval) (ps : list (string * jsval)) (pr : jsval) :
  forallb is_js_space (list_of (query st)) = false ->
  read data "results" = Some results -> truthy results = false ->
  prop data "detail" = JArr l -> In (JObj ps pr) l ->
  render L (submit st (NetBody data)) = None.
Proof.
  intros Hq Hr Ht Hd Hin. rewrite (render_app_error L st data results Hq Hr Ht).
  cbv zeta. rewrite Hd. simpl.
  assert (E : forallb valid_child l = false).
  { destruct (forallb valid_child l) eqn:E; [|reflexivity].
    rewrite forallb_forall in E. specialize (E _ Hin). discriminate. }
  rewrite E. reflexivity.
Qed.

Definition validation_error : jsval :=
  plain [("detail", JArr [plain [("loc", JArr [JStr "body"; JStr "question"]);
                                 ("msg", JStr "field required");
                                 ("type", JStr "value_error.missing")]])].

Lemma render_crashes_on_object_detail_witness :
  forallb is_js_space (list_of (query (with_query "revenue"))) = false /\
  read validation_error "results" = Some JUndef /\ truthy JUndef = false /\
  prop validation_error "detail"
  = JArr [plain [("loc", JArr [JStr "body"; JStr "question"]);
                 ("msg", JStr "field required"); ("type", JStr "value_error.missing")]] /\
  In (plain [("loc", JArr [JStr "body"; JStr "question"]);
             ("msg", JStr "field required"); ("type", JStr "value_error.missing")])
     [plain [("loc", JArr [JStr "body"; JStr "question"]);
             ("msg", JStr "field required"); ("type", JStr "value_error.missing")]] /\
  render (fun _ => "") (submit (with_query "revenue") (NetBody validation_error)) = None.
Proof.
  assert (Hin : In (plain [("loc", JArr [JStr "body"; JStr "question"]);
                           ("msg", JStr "field required"); ("type", JStr "value_error.missing")])
                   [plain [("loc", JArr [JStr "body"; JStr "question"]);
                           ("msg", JStr "field required"); ("type", JStr "value_error.missing")]])
    by (left; reflexivity).
  split; [reflexivity|]. split; [reflexivity|]. split; [reflexivity|].
  split; [reflexivity|]. split; [exact Hin|].
  exact (render_crashes_on_object_detail (fun _ => "") (with_query "revenue") validation_error
           JUndef _ _ _ eq_refl eq_refl eq_refl eq_refl Hin).
Defined.

(** After a body with truthy results, a page that renders shows no error
    box (error is ""), "Ready" with the button enabled, the latency cards
    of latency ?? null, and the chart ChartPreview draws for the
    results. *)
Theorem render_after_success (L : Q -> string) (st : ui_state) (data results : jsval) (p : page) :
  forallb is_js_space (list_of (query st)) = false ->
  read data "results" = Some results -> truthy results = true ->
  render L (submit st (NetBody data)) = Some p ->
  error_view p = NoErrorBox (JStr "") /\ status_badge p = "Ready" /\
  generate_disabled p = false /\
  latency_cards L (nullish_default (prop data "latency") JNull) = Some (latency_view p) /\
  ChartPreview results = Some (chart_view p).
Proof.
  intros Hq Hr Ht Hp.
  rewrite (submit_success_branch st data results (nonblank_trim _ Hq) Hr Ht) in Hp.
  unfold success_state, render in Hp. simpl in Hp.
  destruct (latency_cards L (nullish_default (prop data "latency") JNull)) as [cards|];
    [|discriminate].
  destruct (truthy (prop data "sql_query") && negb (valid_child (prop data "sql_query")));
    [discriminate|].
  destruct (ChartPreview results) as [ch|]; [|discriminate].
  injection Hp as <-. simpl. repeat split; reflexivity.
Qed.

Lemma render_after_success_witness :
  forallb is_js_space (list_of (query (with_query "sales"))) = false /\
  read sample_response "results" = Some sample_rows /\ truthy sample_rows = true /\
  render (fun _ => "") (submit (with_query "sales") (NetBody sample_response))
  = render (fun _ => "") (submit (with_query "sales") (NetBody sample_response)) /\
  (forall p, render (fun _ => "") (submit (with_query "sales") (NetBody sample_response)) = Some p ->
   error_view p = NoErrorBox (JStr "") /\ status_badge p = "Ready" /\
   generate_disabled p = false /\
   latency_cards (fun _ => "") (nullish_default (prop sample_response "latency") JNull)
   = Some (latency_view p) /\
   ChartPreview sample_rows = Some (chart_view p)).
Proof.
  split; [reflexivity|]. split; [reflexivity|]. split; [reflexivity|].
  split; [reflexivity|]. intros p Hp.
  exact (render_after_success (fun _ => "") (with_query "sales") sample_response sample_rows p
           eq_refl eq_refl eq_refl Hp).
Defined.

(** ** The chart *)

Lemma map_option_length {A B} (f : A -> option B) (l : list A) (l' : list B) :
  map_option f l = Some l' -> List.length l' = List.length l.
Proof.
  revert l'. induction l as [|x r IH]; intros l' H; simpl in H.
  - injection H as <-. reflexivity.
  - destruct (f x); [|discriminate]. destruct (map_option f r) as [ys|] eqn:E; [|discriminate].
    injection H as <-. simpl. f_equal. apply IH. reflexivity.
Qed.

(** The placeholder "No data available yet" shows exactly when no shape
    is inferred: once a shape is inferred the sanitized rows are never
    empty (the sample row is one of them), so the check of their length
    never hides a chart, and the chart has the category key as its axis
    and one bar series per value key. *)
Theorem ChartPreview_placeholder_iff_no_shape (data : jsval) :
  (chartStructure data = None -> ChartPreview data = Some NoData) /\
  (forall s rows, chartStructure data = Some s -> sanitized (Some s) data = Some rows ->
   rows <> [] /\ ChartPreview data = Some (BarChart rows (xKey s) (bars (yKeys s)))).
Proof.
  split.
  - intros H. unfold ChartPreview. rewrite H. reflexivity.
  - intros s rows Hc Hs.
    assert (Hne : rows <> []).
    { unfold sanitized in Hs. unfold chartStructure in Hc.
      destruct (array_elems data) as [rs|]; [|discriminate].
      destruct rs as [|r0 rs']; [discriminate|].
      destruct (find is_object_row (r0 :: rs')) as [sample|] eqn:Ef; [|discriminate].
      apply find_some in Ef. destruct Ef as [Hin Hob].
      apply map_option_length in Hs. intros E. subst rows.
      assert (Hf : In sample (filter is_object_row (r0 :: rs')))
        by (apply filter_In; split; assumption).
      destruct (filter is_object_row (r0 :: rs')); [contradiction|discriminate]. }
    split; [exact Hne|].
    unfold ChartPreview. rewrite Hc, Hs.
    destruct rows; [contradiction|reflexivity].
Qed.

Lemma ChartPreview_placeholder_iff_no_shape_witness :
  (chartStructure sample_rows = None -> ChartPreview sample_rows = Some NoData) /\
  (forall s rows, chartStructure sample_rows = Some s -> sanitized (Some s) sample_rows = Some rows ->
   rows <> [] /\ ChartPreview sample_rows = Some (BarChart rows (xKey s) (bars (yKeys s)))).
Proof. exact (ChartPreview_placeholder_iff_no_shape sample_rows). Defined.

Lemma map_snd_combine_seq (n : nat) (ks : list string) :
  map snd (combine (seq n (List.length ks)) ks) = ks.
Proof.
  revert n. induction ks as [|k ks IH]; intros n; simpl; [reflexivity|].
  f_equal. apply IH.
Qed.

Lemma nth_bars (ks : list string) (i : nat) :
  i < List.length ks ->
  nth i (bars ks) ("", "") = (nth i ks "", nth (i mod 5) colors "").
Proof.
  intros Hi. unfold bars.
  set (f := fun ik : nat * string => (snd ik, nth (fst ik mod List.length colors) colors "")).
  rewrite (nth_indep _ ("", "") (f (0, ""))).
  2:{ rewrite length_map, length_combine, length_seq, Nat.min_id. exact Hi. }
  rewrite map_nth, combine_nth by (rewrite length_seq; reflexivity).
  rewrite seq_nth by exact Hi. reflexivity.
Qed.

Lemma colors_distinct (a b : nat) :
  a < 5 -> b < 5 -> nth a colors "" = nth b colors "" <-> a = b.
Proof.
  intros Ha Hb. split; [|intros ->; reflexivity].
  do 5 (destruct a as [|a]; [do 5 (destruct b as [|b]; [try reflexivity; simpl; discriminate|]);
                               lia|]); lia.
Qed.

Lemma mod5_shift (i d : nat) : (i + d) mod 5 = i mod 5 <-> d mod 5 = 0.
Proof.
  rewrite Nat.Div0.add_mod.
  assert (Ha : i mod 5 < 5) by (apply Nat.mod_upper_bound; discriminate).
  assert (Hb : d mod 5 < 5) by (apply Nat.mod_upper_bound; discriminate).
  generalize (i mod 5) (d mod 5) Ha Hb. intros a b Ha' Hb'.
  do 5 (destruct a as [|a]; [do 5 (destruct b as [|b]; [simpl; lia|]); lia|]); lia.
Qed.

(** The bars are the value keys in order, and their colours cycle
    through the five of the palette: two bars have the same colour
    exactly when their positions differ by a multiple of 5, so up to
    five series are told apart and the sixth repeats the first. *)
Theorem bars_colour_cycle (ks : list string) :
  map fst (bars ks) = ks /\
  forall i j, i < j < List.length ks ->
    (snd (nth i (bars ks) ("", "")) = snd (nth j (bars ks) ("", "")) <-> (j - i) mod 5 = 0).
Proof.
  split.
  - unfold bars. rewrite map_map. simpl. apply map_snd_combine_seq.
  - intros i j [Hij Hj]. rewrite !nth_bars by lia. cbn [snd].
    rewrite colors_distinct by (apply Nat.mod_upper_bound; discriminate).
    replace j with (i + (j - i)) at 1 by lia.
    rewrite <- (mod5_shift i (j - i)). split; intros E; symmetry; exact E.
Qed.

Lemma bars_colour_cycle_witness :
  map fst (bars ["a"; "b"; "c"; "d"; "e"; "f"]) = ["a"; "b"; "c"; "d"; "e"; "f"] /\
  forall i j, i < j < List.length ["a"; "b"; "c"; "d"; "e"; "f"] ->
    (snd (nth i (bars ["a"; "b"; "c"; "d"; "e"; "f"]) ("", ""))
     = snd (nth j (bars ["a"; "b"; "c"; "d"; "e"; "f"]) ("", "")) <-> (j - i) mod 5 = 0).
Proof. exact (bars_colour_cycle ["a"; "b"; "c"; "d"; "e"; "f"]). Defined.

(** ** Latency cards *)

(** A latency that is not an object with own fields (null, undefined, a
    boolean, number, string or array) shows "—" on all three cards. *)
Theorem latency_cards_non_object (L : Q -> string) (latency : jsval) :
  (forall ps pr, latency <> JObj ps pr) -> latency_cards L latency = Some dashes.
Proof.
  intros H. destruct latency as [| |b|n|s|l|ps pr|b];
    [reflexivity|reflexivity|reflexivity|reflexivity|reflexivity|reflexivity| |].
  - exfalso. exact (H ps pr eq_refl).
  - destruct b; reflexivity.
Qed.

Lemma latency_cards_non_object_witness :
  (forall ps pr, JStr "0.5" <> JObj ps pr) /\
  latency_cards (fun _ => "") (JStr "0.5") = Some dashes.
Proof.
  assert (H : forall ps pr, JStr "0.5" <> JObj ps pr) by discriminate.
  split; [exact H|]. exact (latency_cards_non_object (fun _ => "") (JStr "0.5") H).
Defined.

(** Number(v) is +Infinity or -Infinity (the string "Infinity", a
    literal such as 1e400): formatLatency shows "Infinitys" or
    "-Infinitys", not "—". *)
Theorem formatLatency_infinite (L : Q -> string) (v : jsval) (n : number) :
  Number v = Some n -> n = PosInf \/ n = NegInf ->
  formatLatency L v = Some (Text (match n with NegInf => "-Infinitys" | _ => "Infinitys" end)).
Proof.
  intros Hn Hi. unfold formatLatency.
  destruct (is_nullish v) eqn:E.
  - destruct v; try discriminate; simpl in Hn; injection Hn as <-;
      destruct Hi; discriminate.
  - rewrite Hn. destruct Hi; subst n; reflexivity.
Qed.

Lemma formatLatency_infinite_witness :
  Number (JStr "Infinity") = Some PosInf /\ (PosInf = PosInf \/ PosInf = NegInf) /\
  formatLatency (fun _ => "") (JStr "Infinity") = Some (Text "Infinitys").
Proof.
  split; [reflexivity|]. split; [left; reflexivity|].
  exact (formatLatency_infinite (fun _ => "") (JStr "Infinity") PosInf eq_refl
           (or_introl eq_refl)).
Defined.

(** A latency that is a string of white space only (the empty string
    included) shows "0.00s", as do false and [], while null and
    undefined show "—". *)
Theorem formatLatency_blank_is_zero (L : Q -> string) (s : string) :
  forallb is_js_space (list_of s) = true ->
  formatLatency L (JStr s) = Some (Text "0.00s") /\
  formatLatency L (JBool false) = Some (Text "0.00s") /\
  formatLatency L (JArr []) = Some (Text "0.00s") /\
  formatLatency L JNull = Some Dash /\ formatLatency L JUndef = Some Dash.
Proof.
  intros H. split; [|repeat split; reflexivity].
  unfold formatLatency, Number. simpl. unfold string_to_number.
  rewrite <- trim_blank in H. apply String.eqb_eq in H. rewrite H. reflexivity.
Qed.

Lemma formatLatency_blank_is_zero_witness :
  forallb is_js_space (list_of " ") = true /\
  formatLatency (fun _ => "") (JStr " ") = Some (Text "0.00s") /\
  formatLatency (fun _ => "") (JBool false) = Some (Text "0.00s") /\
  formatLatency (fun _ => "") (JArr []) = Some (Text "0.00s") /\
  formatLatency (fun _ => "") JNull = Some Dash /\ formatLatency (fun _ => "") JUndef = Some Dash.
Proof.
  split; [reflexivity|]. exact (formatLatency_blank_is_zero (fun _ => "") " " eq_refl).
Defined.

(** ** Reading back what formatLatency shows *)








Lemma zero_is_digit : "0"%char = digit_char 0.
Proof. reflexivity. Qed.


(** The digits toFixed(2) writes for [n]: padded to at least three. *)
Definition padded (n : Z) : list ascii :=
  let m := decimal_digits n in
  let k := List.length m in
  if k <=? 2 then (repeat "0"%char (3 - k) ++ m)%list else m.









(** The digits and point toFixed(2) writes for |x| < 10^21. *)
Definition fixed_body (n : Z) : list ascii :=
  let m := padded n in
  let k := List.length m in
  (firstn (k - 2) m ++ "."%char :: skipn (k - 2) m)%list.


Definition sign_chars (q : Q) : list ascii :=
  if Qle_bool 0 q then [] else ["-"%char].

Lemma toFixed2_small (L : Q -> string) (q : Q) :
  Qle_bool (inject_Z (10 ^ 21)) (if negb (Qle_bool 0 q) then (- q)%Q else q) = false ->
  toFixed2 L (Fin q) =
  string_of_list_ascii
    (sign_chars q ++ fixed_body (Qfloor ((if negb (Qle_bool 0 q) then (- q)%Q else q) * 100
                                         + (1 # 2)))).
Proof.
  intros H. unfold toFixed2. cbv zeta. rewrite H.
  unfold sign_chars, fixed_body, padded. destruct (Qle_bool 0 q); reflexivity.
Qed.

Lemma ten21 : inject_Z (10 ^ 21) == 1000000000000000000000.
Proof. reflexivity. Qed.



(** A negative latency that rounds to zero keeps its sign: toFixed(2)
    of a value strictly between -0.005 and 0 is "-0.00". *)
Theorem formatLatency_small_negative (L : Q -> string) (q : Q) :
  (- (1 # 200) < q)%Q -> (q < 0)%Q ->
  formatLatency L (JNum (Fin q)) = Some (Text "-0.00s").
Proof.
  intros H1 H2. unfold formatLatency. cbn [is_nullish Number is_object prim_to_number].
  assert (Hs : Qle_bool 0 q = false).
  { destruct (Qle_bool 0 q) eqn:E; [|reflexivity]. apply Qle_bool_iff in E. lra. }
  assert (Hbig : Qle_bool (inject_Z (10 ^ 21)) (if negb (Qle_bool 0 q) then (- q)%Q else q)
                 = false).
  { rewrite Hs. simpl negb. cbv iota.
    destruct (Qle_bool (inject_Z (10 ^ 21)) (- q)) eqn:E; [|reflexivity].
    apply Qle_bool_iff in E. rewrite ten21 in E. lra. }
  rewrite (toFixed2_small L q Hbig). rewrite Hs. simpl negb. cbv iota.
  assert (Hz : Qfloor (- q * 100 + (1 # 2)) = 0%Z).
  { assert (A := Qfloor_le (- q * 100 + (1 # 2))).
    assert (B := Qlt_floor (- q * 100 + (1 # 2))).
    rewrite inject_Z_plus in B. change (inject_Z 1) with 1%Q in B.
    assert (C : (-1 < Qfloor (- q * 100 + (1 # 2)) < 1)%Z).
    { rewrite !Zlt_Qlt. change (inject_Z (-1)) with (-1)%Q. change (inject_Z 1) with 1%Q.
      split; lra. }
    lia. }
  rewrite Hz. unfold sign_chars. rewrite Hs. reflexivity.
Qed.

Lemma formatLatency_small_negative_witness :
  (- (1 # 200) < -1 # 1000)%Q /\ (-1 # 1000 < 0)%Q /\
  formatLatency (fun _ => "") (JNum (Fin (-1 # 1000))) = Some (Text "-0.00s").
Proof.
  assert (H1 : (- (1 # 200) < -1 # 1000)%Q) by reflexivity.
  assert (H2 : (-1 # 1000 < 0)%Q) by reflexivity.
  split; [exact H1|]. split; [exact H2|].
  exact (formatLatency_small_negative (fun _ => "") (-1 # 1000) H1 H2).
Defined.
